(** * eFFORT: form factors and differential rate of B -> D l nu (BToD.py)

    A shallow embedding of [eFFORT/BToD.py]: the base class [BToD], its two
    parametrisations [BToDCLN] and [BToDBGL], and the NumPy arithmetic their
    methods are written in.

    Numbers.  A Python or NumPy float is idealised as a real number: there
    is no rounding and no overflow.  What IEEE arithmetic or Python answers
    with nan, with an infinity, with a complex number or with an arithmetic
    exception (ZeroDivisionError) is the single value [NaN], which every
    operation propagates.  Statements about a returned number are therefore
    statements about the exact value of the formula the code evaluates.

    Values.  Python is dynamically typed: an argument or an attribute is
    [None], a float, a one-dimensional NumPy array or a list.  Operators
    broadcast as NumPy does and raise [TypeError] on [None], unless it
    meets an array without entries.

    Objects.  An instance is its class and its attribute dictionary;
    [__init__] writes attributes, methods read them through [self]. *)

From Stdlib Require Import Reals Lra.
From stdpp Require Import base option list strings gmap.

Open Scope R_scope.

(** ** Numbers *)

Inductive num : Type :=
  | Real (x : R)
  | NaN.

Definition lift2 (f : R → R → R) (a b : num) : num :=
  match a, b with
  | Real x, Real y => Real (f x y)
  | _, _ => NaN
  end.

Definition nadd : num → num → num := lift2 Rplus.
Definition nsub : num → num → num := lift2 Rminus.
Definition nmul : num → num → num := lift2 Rmult.

(** [x / y]: no finite value when the divisor is zero. *)
Definition ndiv (a b : num) : num :=
  match a, b with
  | Real x, Real y => if Req_dec_T y 0 then NaN else Real (x / y)
  | _, _ => NaN
  end.

(** [np.sqrt]: nan below zero. *)
Definition nsqrt (a : num) : num :=
  match a with
  | Real x => if Rlt_dec x 0 then NaN else Real (sqrt x)
  | NaN => NaN
  end.

(** [x ** y] on finite operands, after C's [pow]: anything to the power 0
    is 1; 0 to a positive power is 0 and to a negative one a division by
    zero; a whole exponent is repeated multiplication or division, for a
    base of either sign; a fractional exponent needs a positive base (a
    negative one gives nan in NumPy and a complex number in Python). *)
Definition float_pow (x y : R) : num :=
  if Req_dec_T y 0 then Real 1
  else if Req_dec_T x 0 then (if Rlt_dec 0 y then Real 0 else NaN)
  else if Req_dec_T y (IZR (Int_part y)) then Real (powerRZ x (Int_part y))
  else if Rlt_dec 0 x then Real (Rpower x y)
  else NaN.

Definition npow (a b : num) : num :=
  match a, b with
  | Real x, Real y => float_pow x y
  | NaN, Real y => if Req_dec_T y 0 then Real 1 else NaN
  | _, NaN => NaN
  end.

(** ** Values, exceptions and NumPy broadcasting *)

Inductive value : Type :=
  | VNone
  | VFloat (x : num)
  | VArray (xs : list num)
  | VList (xs : list num).

Inductive exn : Type :=
  | TypeError
  | ValueError
  | AttributeError.

Inductive result (A : Type) : Type :=
  | Ok (a : A)
  | Raise (e : exn).
Arguments Ok {A} a.
Arguments Raise {A} e.

Definition and_then {A B} (m : result A) (k : A → result B) : result B :=
  match m with
  | Ok a => k a
  | Raise e => Raise e
  end.

(** A numeric literal of the source, and a plain float. *)
Notation "# x" := (VFloat (Real x)) (at level 9, x at level 9, format "# x").

Definition is_None (v : value) : bool :=
  match v with
  | VNone => true
  | _ => false
  end.

(** Two arrays combine element by element when their lengths agree, and an
    array of one element stretches to the length of the other. *)
Definition broadcast (f : num → num → num) (xs ys : list num) : result value :=
  if decide (length xs = length ys) then Ok (VArray (zip_with f xs ys))
  else match xs, ys with
       | [x], _ => Ok (VArray (f x <$> ys))
       | _, [y] => Ok (VArray ((λ x, f x y) <$> xs))
       | _, _ => Raise ValueError
       end.

(** An array against [None]: NumPy applies the operator entry by entry, and
    the first entry fails with a [TypeError]; an array without entries has
    none to fail on, and the result is an empty array. *)
Definition against_None (xs : list num) : result value :=
  match xs with
  | [] => Ok (VArray [])
  | _ :: _ => Raise TypeError
  end.

(** A binary arithmetic operator.  A list that meets an array is read as an
    array; a list against a number, and [None] against a number, a list or
    [None], is a [TypeError]. *)
Definition arith (f : num → num → num) (a b : value) : result value :=
  match a, b with
  | VFloat x, VFloat y => Ok (VFloat (f x y))
  | VFloat x, VArray ys => Ok (VArray (f x <$> ys))
  | VArray xs, VFloat y => Ok (VArray ((λ x, f x y) <$> xs))
  | VArray xs, VArray ys
  | VArray xs, VList ys
  | VList xs, VArray ys => broadcast f xs ys
  | VArray xs, VNone
  | VNone, VArray xs => against_None xs
  | _, _ => Raise TypeError
  end.

(** [+] also concatenates two lists. *)
Definition vadd (a b : value) : result value :=
  match a, b with
  | VList xs, VList ys => Ok (VList (xs ++ ys))
  | _, _ => arith nadd a b
  end.
Definition vsub : value → value → result value := arith nsub.
Definition vmul : value → value → result value := arith nmul.
Definition vdiv : value → value → result value := arith ndiv.
Definition vpow : value → value → result value := arith npow.

(** A NumPy universal function of one argument. *)
Definition ufunc (f : num → num) (a : value) : result value :=
  match a with
  | VFloat x => Ok (VFloat (f x))
  | VArray xs | VList xs => Ok (VArray (f <$> xs))
  | VNone => Raise TypeError
  end.

Definition np_sqrt : value → result value := ufunc nsqrt.
Definition np_pi : value := #PI.

(** The items of an iterable. *)
Definition iterate (a : value) : result (list num) :=
  match a with
  | VArray xs | VList xs => Ok xs
  | _ => Raise TypeError
  end.

(** Python's [sum]: start from 0 and add from the left. *)
Definition py_sum (terms : list value) : result value :=
  foldl (λ acc t, and_then acc (λ s, vadd s t)) (Ok #0) terms.

(** ** Objects and the monad of method bodies *)

Inductive class : Type :=
  | BToD
  | BToDCLN
  | BToDBGL.

Record object : Type := Object {
  cls : class;
  dict : gmap string value
}.

(** A method body runs against [self]: it returns a value or raises, and
    hands back the object as it left it. *)
Definition M (A : Type) : Type := object → result A * object.

Definition ret {A} (a : A) : M A := λ s, (Ok a, s).
Definition bind {A B} (m : M A) (k : A → M B) : M B := λ s,
  match m s with
  | (Ok a, s') => k a s'
  | (Raise e, s') => (Raise e, s')
  end.

Declare Scope monad_scope.
Delimit Scope monad_scope with M.
Bind Scope monad_scope with M.
Notation "x <- m ;; k" := (bind m (λ x, k))
  (at level 100, m at next level, k at level 200, right associativity,
   only parsing) : monad_scope.
Notation "m ;; k" := (bind m (λ _, k))
  (at level 100, k at level 200, right associativity, only parsing)
  : monad_scope.
Open Scope monad_scope.

Definition raise {A} (e : exn) : M A := λ s, (Raise e, s).
Definition lift {A} (r : result A) : M A := λ s, (r, s).
Definition self : M object := λ s, (Ok s, s).

(** [self.name] *)
Definition getattr (name : string) : M value := λ s,
  match dict s !! name with
  | Some v => (Ok v, s)
  | None => (Raise AttributeError, s)
  end.

(** [self.name = v] *)
Definition setattr (name : string) (v : value) : M unit := λ s,
  (Ok (), Object (cls s) (<[name := v]> (dict s))).

(** Expressions: operands are evaluated from left to right, then the
    operator is applied. *)
Definition E : Type := M value.
Definition const (v : value) : E := ret v.
Coercion const : value >-> E.

Definition binop (op : value → value → result value) (a b : E) : E :=
  x <- a;; y <- b;; lift (op x y).

Declare Scope py_scope.
Delimit Scope py_scope with py.
Bind Scope py_scope with E.
Infix "+" := (binop vadd) : py_scope.
Infix "-" := (binop vsub) : py_scope.
Infix "*" := (binop vmul) : py_scope.
Infix "/" := (binop vdiv) : py_scope.
Infix "**" := (binop vpow) (at level 30, right associativity) : py_scope.

(** [C(args)]: a fresh instance of class [C], initialised by [__init__]. *)
Definition new (C : class) (init : M ()) : result object :=
  match init (Object C ∅) with
  | (Ok _, s) => Ok s
  | (Raise e, _) => Raise e
  end.

(** A bound method such as [self.phi_plus], handed to another function as
    a callable: calling it runs the method against the object it was taken
    from. *)
Definition bound (m : value → E) : M (value → result value) := λ s,
  (Ok (λ z, (m z s).1), s).

(** ** The classes of BToD.py *)

Section BToD.

(** What the module imports from [eFFORT.utility]: the constant
    [PDG.G_F] and the functions [z_var] and [BGL_form_factor].  They are
    not part of [BToD.py] and stay parameters of its embedding. *)
Variable PDG_G_F : R.
Variable z_var : value → result value.
Variable BGL_form_factor :
  value → (value → result value) → (value → result value) → value →
  result value.

(** [BToD.__init__(self, m_B, m_D, V_cb, eta_EW=1.0066)] *)
Definition BToD_init (m_B m_D V_cb : value) (eta_EW : option value) : M () :=
  let eta_EW := default #1.0066 eta_EW in
  setattr "m_B" m_B;;
  setattr "m_D" m_D;;
  setattr "V_cb" V_cb;;
  setattr "eta_EW" eta_EW;;
  setattr "G_F" #PDG_G_F;;
  r <- (getattr "m_D" / getattr "m_B")%py;;
  setattr "r" r.

(** [BToDCLN.__init__(self, m_B, m_Dstar, V_cb, eta_EW=1.0066,
    cln_g1=None, cln_rho2=None)] *)
Definition BToDCLN_init (m_B m_Dstar V_cb : value)
    (eta_EW cln_g1 cln_rho2 : option value) : M () :=
  let eta_EW := default #1.0066 eta_EW in
  let cln_g1 := default VNone cln_g1 in
  let cln_rho2 := default VNone cln_rho2 in
  BToD_init m_B m_Dstar V_cb (Some eta_EW);;
  setattr "G_1" (if is_None cln_g1 then #1.074 else cln_g1);;
  setattr "rho2" (if is_None cln_rho2 then #1.15 else cln_rho2).

(** [BToDBGL.__init__(self, m_B, m_Dstar, V_cb, eta_EW=1.0066,
    bgl_fplus_coefficients=None)] *)
Definition BToDBGL_init (m_B m_Dstar V_cb : value)
    (eta_EW bgl_fplus_coefficients : option value) : M () :=
  let eta_EW := default #1.0066 eta_EW in
  let bgl_fplus_coefficients := default VNone bgl_fplus_coefficients in
  BToD_init m_B m_Dstar V_cb (Some eta_EW);;
  setattr "expansion_coefficients"
    (if is_None bgl_fplus_coefficients then VList []
     else bgl_fplus_coefficients).

(** [BToD.G]: the body is [pass], so the call returns [None]. *)
Definition BToD_G (w : value) : E := ret VNone.

(** [BToDCLN.G] *)
Definition BToDCLN_G (w : value) : E :=
  rho2 <- getattr "rho2";;
  z <- lift (z_var w);;
  ((getattr "G_1" *
    (#1 - #8 * rho2 * z + (#51 * rho2 - #10) * z ** #2
     - (#252 * rho2 - #84) * z ** #3)) ** #2)%py.

(** [BToDBGL.phi_plus] *)
Definition phi_plus (z : value) : E :=
  r <- getattr "r";;
  (#1.1213 * (#1 + z) ** #2 * (#1 - z) ** (#1 / #2) *
   ((#1 + r) * (#1 - z) + #2 * lift (np_sqrt r) * (#1 + z)) ** #(-5))%py.

(** The call [BGL_form_factor(z_var(w), lambda x: 1, self.phi_plus,
    self.expansion_coefficients)] shared by [G] and [fplus]. *)
Definition form_factor_call (w : value) : E :=
  z <- lift (z_var w);;
  phi <- bound phi_plus;;
  a <- getattr "expansion_coefficients";;
  lift (BGL_form_factor z (λ x, Ok #1) phi a).

(** [BToDBGL.G] *)
Definition BToDBGL_G (w : value) : E :=
  (#4 * getattr "r" / (#1 + getattr "r") ** #2 *
   form_factor_call w ** #2)%py.

(** [BToDBGL.fplus] *)
Definition fplus (w : value) : E :=
  (form_factor_call w ** #2)%py.

(** [self.G(w)]: the method of the class of [self]. *)
Definition G (w : value) : E :=
  s <- self;;
  match cls s with
  | BToD => BToD_G w
  | BToDCLN => BToDCLN_G w
  | BToDBGL => BToDBGL_G w
  end.

(** [BToD.dGamma_dw], inherited by both parametrisations. *)
Definition dGamma_dw (w : value) : E :=
  m_B <- getattr "m_B";;
  m_D <- getattr "m_D";;
  (getattr "G_F" ** #2 * m_D ** #3 / #48 / np_pi ** #3 *
   (m_B + m_D) ** #2 * (w ** #2 - #1) ** (#3 / #2) *
   getattr "eta_EW" ** #2 * getattr "V_cb" ** #2 * G w)%py.

End BToD.

(** ** The utilities of [eFFORT.utility] *)

Declare Scope result_scope.
Delimit Scope result_scope with res.
Notation "x <- m ;; k" := (and_then m (λ x, k))
  (at level 100, m at next level, k at level 200, right associativity,
   only parsing) : result_scope.

(** [[a_i * z ** n for n, a_i in enumerate(a)]], counting from [n]. *)
Fixpoint series_terms (z : value) (n : nat) (a : list num)
    : result (list value) :=
  match a with
  | [] => Ok []
  | a_i :: a' =>
      (zn <- vpow z #(INR n);;
       t <- vmul (VFloat a_i) zn;;
       ts <- series_terms z (S n) a';;
       Ok (t :: ts))%res
  end.

(** Modelled from the spec: [BGL_form_factor] of [eFFORT.utility], which
    BToD.py imports and calls but does not define.  The spec describes it
    as [seriesSum(z, blaschkeFn, outerFn, coefficients)], "computing a
    weighted sum Σ coefficients[i]·zⁱ ... divided by
    blaschkeFn(z)·outerFn(z)". *)
Definition BGL_form_factor_spec (z : value) (p phi : value → result value)
    (a : value) : result value :=
  (coefficients <- iterate a;;
   terms <- series_terms z 0 coefficients;;
   series <- py_sum terms;;
   P <- p z;;
   Phi <- phi z;;
   d <- vmul P Phi;;
   vdiv series d)%res.

(** Modelled from the spec: [z_var] of [eFFORT.utility], "a conformal map
    (standard BGL/CLN substitution) from recoil w to expansion variable
    z", which sends w = 1 to z = 0 and is applied elementwise:
    z = (sqrt(w + 1) - sqrt 2) / (sqrt(w + 1) + sqrt 2). *)
Definition z_num (w : num) : num :=
  ndiv (nsub (nsqrt (nadd w (Real 1))) (nsqrt (Real 2)))
       (nadd (nsqrt (nadd w (Real 1))) (nsqrt (Real 2))).

Definition z_var_spec : value → result value := ufunc z_num.

(** * Vocabulary of the statements *)

(** ** Running method bodies *)

(** [returns m s a]: run against [s], the body [m] returns [a] and leaves
    [s] as it was. *)
Definition returns {A} (m : M A) (s : object) (a : A) : Prop :=
  m s = (Ok a, s).

(** [frame m]: whatever [m] returns or raises, and whatever object it runs
    against, it hands the object back unchanged. *)
Definition frame {A} (m : M A) : Prop := ∀ s, (m s).2 = s.

(** ** Elementwise evaluation

    The argument [w] of a method is a number or an array.  A value computed
    from it denotes a function [g] of one number: on a scalar argument it
    is the float [g w]; on an array argument it is the array of the [g w],
    or, if nothing in it depends on the argument, a float that [g] returns
    everywhere. *)

Inductive input : Type :=
  | Scalar (w : num)
  | Array (ws : list num).

Definition arg (i : input) : value :=
  match i with
  | Scalar w => VFloat w
  | Array ws => VArray ws
  end.

Definition den (i : input) (vec : bool) (g : num → num) (v : value) : Prop :=
  match i with
  | Scalar w => v = VFloat (g w)
  | Array ws =>
      if vec then v = VArray (g <$> ws)
      else ∃ c, v = VFloat c ∧ ∀ w, g w = c
  end.

Definition evals (i : input) (vec : bool) (g : num → num) (e : E)
    (s : object) : Prop :=
  ∃ v, returns e s v ∧ den i vec g v.

(** ** Construction *)

(** A float argument that may be left out. *)
Definition opt_float (x : option R) : option value := (λ x, #x) <$> x.

(** The attributes [BToD.__init__] leaves on an object. *)
Definition base_dict (PDG_G_F : R) (mB mD V eta : value) (r : num)
    (d : gmap string value) : gmap string value :=
  <["r" := VFloat r]> (<["G_F" := #PDG_G_F]> (<["eta_EW" := eta]>
  (<["V_cb" := V]> (<["m_D" := mD]> (<["m_B" := mB]> d))))).

(** The float attributes every method of the base class reads, on an
    object that [BToD.__init__] has initialised with masses [mB], [mD],
    CKM element [V] and electroweak correction [eta]. *)
Record base_model (PDG_G_F : R) (s : object) (mB mD V eta : R) : Prop :=
  BaseModel {
    base_m_B : dict s !! "m_B" = Some #mB;
    base_m_D : dict s !! "m_D" = Some #mD;
    base_V_cb : dict s !! "V_cb" = Some #V;
    base_eta_EW : dict s !! "eta_EW" = Some #eta;
    base_G_F : dict s !! "G_F" = Some #PDG_G_F;
    base_r : dict s !! "r" = Some (VFloat (ndiv (Real mD) (Real mB)))
  }.

(** The Fermi constant in GeV^-2 as the Particle Data Group lists it; the
    examples below build their models with it. *)
Definition G_F_GeV : R := 1.1663787e-5.

(** ** The form factors and the rate as functions of one number *)

(** The function of [z] that [phi_plus] evaluates, for mass ratio [r]. *)
Definition phi_num (r z : num) : num :=
  nmul
    (nmul
       (nmul (Real 1.1213) (npow (nadd (Real 1) z) (Real 2)))
       (npow (nsub (Real 1) z) (ndiv (Real 1) (Real 2))))
    (npow
       (nadd (nmul (nadd (Real 1) r) (nsub (Real 1) z))
             (nmul (nmul (Real 2) (nsqrt r)) (nadd (Real 1) z)))
       (Real (-5))).

Definition CLN_num (G_1 rho2 z : num) : num :=
  npow
    (nmul G_1
       (nsub
          (nadd
             (nsub (Real 1) (nmul (nmul (Real 8) rho2) z))
             (nmul (nsub (nmul (Real 51) rho2) (Real 10))
                   (npow z (Real 2))))
          (nmul (nsub (nmul (Real 252) rho2) (Real 84)) (npow z (Real 3)))))
    (Real 2).

Definition prefactor_num (r : num) : num :=
  ndiv (nmul (Real 4) r) (npow (nadd (Real 1) r) (Real 2)).

(** The partial sums of the series, as a function of [z]. *)
Fixpoint series_num (z : num) (n : nat) (a : list num) (acc : num) : num :=
  match a with
  | [] => acc
  | a_i :: a' =>
      series_num z (S n) a' (nadd acc (nmul a_i (npow z (Real (INR n)))))
  end.

Definition series_sum_num (r : num) (a : list num) (z : num) : num :=
  ndiv (series_num z 0 a (Real 0)) (nmul (Real 1) (phi_num r z)).

Definition BGL_num (r : num) (a : list num) (z : num) : num :=
  nmul (prefactor_num r) (npow (series_sum_num r a z) (Real 2)).

Definition rate_num (G_F m_B m_D eta_EW V_cb w g : num) : num :=
  nmul
    (nmul
       (nmul
          (nmul
             (nmul
                (ndiv
                   (ndiv (nmul (npow G_F (Real 2)) (npow m_D (Real 3)))
                         (Real 48))
                   (npow (Real PI) (Real 3)))
                (npow (nadd m_B m_D) (Real 2)))
             (npow (nsub (npow w (Real 2)) (Real 1))
                   (ndiv (Real 3) (Real 2))))
          (npow eta_EW (Real 2)))
       (npow V_cb (Real 2)))
    g.

Fixpoint sum_flag (b bz : bool) (a : list num) : bool :=
  match a with
  | [] => b
  | _ :: a' => sum_flag (b || (false || (bz || false))) bz a'
  end.

(** The series over real coefficients. *)
Fixpoint series_R (z : R) (n : nat) (a : list R) (acc : R) : R :=
  match a with
  | [] => acc
  | a_i :: a' => series_R z (S n) a' (acc + a_i * z ^ n)
  end.

(** A coefficient list that may be left out. *)
Definition opt_coefficients (a : option (list R)) : option value :=
  (λ a, VList (Real <$> a)) <$> a.

(** The float a scalar call returned; [NaN] if it returned none. *)
Definition scalar_of (out : result value * object) : num :=
  match out.1 with
  | Ok (VFloat x) => x
  | _ => NaN
  end.

(** A method is elementwise on an object when every scalar call returns a
    float and a call on an array returns the array of what the scalar calls
    return, entry by entry and in the order of the entries. *)
Definition elementwise (m : value → E) (s : object) : Prop :=
  (∀ w, ∃ x, returns (m (VFloat w)) s (VFloat x)) ∧
  (∀ ws, returns (m (VArray ws)) s
           (VArray ((λ w, scalar_of (m (VFloat w) s)) <$> ws))).

(** ** The closed forms of the specification *)

(** The CLN squared form factor,
    [G1 (1 - 8 rho2 z + (51 rho2 - 10) z^2 - (252 rho2 - 84) z^3)]^2. *)
Definition CLN_form_factor (G1 rho2 z : R) : R :=
  (G1 * (1 - 8 * rho2 * z + (51 * rho2 - 10) * z ^ 2
         - (252 * rho2 - 84) * z ^ 3)) ^ 2.

(** The differential rate,
    G_F^2 m_D^3 / (48 pi^3) (m_B + m_D)^2 (w^2 - 1)^(3/2) eta_EW^2 V_cb^2 G,
    for a squared form factor of value [g].  On the non-negative numbers
    the power 3/2 is the cube of the square root. *)
Definition differential_rate (G_F m_B m_D eta_EW V_cb w g : R) : R :=
  G_F ^ 2 * m_D ^ 3 / (48 * PI ^ 3) * (m_B + m_D) ^ 2
  * sqrt (w ^ 2 - 1) ^ 3 * eta_EW ^ 2 * V_cb ^ 2 * g.

(** The prefactor of the BGL squared form factor, 4 r / (1 + r)^2. *)
Definition BGL_prefactor (r : R) : R := 4 * r / (1 + r) ^ 2.

(** The outer function,
    1.1213 (1 + z)^2 (1 - z)^(1/2) [(1 + r)(1 - z) + 2 sqrt r (1 + z)]^(-5). *)
Definition outer_function (r z : R) : R :=
  1.1213 * (1 + z) ^ 2 * sqrt (1 - z)
  * / ((1 + r) * (1 - z) + 2 * sqrt r * (1 + z)) ^ 5.

(** The BGL squared form factor for real coefficients [a]: the prefactor
    times the square of the series sum divided by the unit Blaschke factor
    times the outer function. *)
Definition BGL_form_factor_R (r : R) (a : list R) (z : R) : R :=
  BGL_prefactor r * (series_R z 0 a 0 / (1 * outer_function r z)) ^ 2.

(** ** Example models

    The models of the demonstration at the end of BToD.py, with the masses
    of the specification's worked example: a CLN model with the default
    parameters, a BGL model with the coefficients of arXiv:1510.03657, and
    a BGL model with no coefficients. *)

Definition example_base : gmap string value :=
  base_dict G_F_GeV #5.279 #1.870 #0.0411 #1.0066
    (ndiv (Real 1.870) (Real 5.279)) ∅.

Definition example_CLN : object :=
  Object BToDCLN (<["rho2" := #1.15]> (<["G_1" := #1.074]> example_base)).

Definition example_coefficients : list R := [0.0126; -0.094; 0.34; -0.1].

Definition example_BGL : object :=
  Object BToDBGL
    (<["expansion_coefficients" := VList (Real <$> example_coefficients)]>
       example_base).

Definition example_BGL_empty : object :=
  Object BToDBGL (<["expansion_coefficients" := VList []]> example_base).

(** ** The demonstration at the end of BToD.py

    The script builds its models, samples the recoil between [w_min] and
    [w_max] and plots [dGamma_dw] over the samples, scaled by 1e15.  The
    masses [PDG.m_Bplus] and [PDG.m_Dzero] it passes come from
    [eFFORT.utility]; here they are whatever the model was built with. *)

(** [w_min = 1] *)
Definition w_min : value := #1.

(** [w_max = (m.m_B ** 2 + m.m_D ** 2) / (2 * m.m_B * m.m_D)], read from the
    model [m] the body runs against. *)
Definition w_max : E :=
  ((getattr "m_B" ** #2 + getattr "m_D" ** #2)
   / (#2 * getattr "m_B" * getattr "m_D"))%py.

(** The samples of [np.linspace(start, stop)] with NumPy's default of 50
    points and the end point included: [i * step + start] for i = 0..48
    with [step = (stop - start) / 49], and [stop] itself as the last. *)
Definition linspace (start stop : num) : list num :=
  let step := ndiv (nsub stop start) (Real 49) in
  ((λ i : nat, nadd (nmul (Real (INR i)) step) start) <$> seq 0 49)
  ++ [stop].

(** [np.linspace] between two numbers, as the script calls it. *)
Definition np_linspace (start stop : value) : result value :=
  match start, stop with
  | VFloat a, VFloat b => Ok (VArray (linspace a b))
  | _, _ => Raise TypeError
  end.

(** [w_range = np.linspace(w_min, w_max, endpoint=True)] *)
Definition w_range : E :=
  stop <- w_max;; lift (np_linspace w_min stop).

(** [m.dGamma_dw(w_range) * 1e15], the curve handed to [plt.plot]. *)
Definition plotted_rate (z_var : value → result value)
    (BGL_form_factor :
       value → (value → result value) → (value → result value) → value →
       result value) (w_range : value) : E :=
  (dGamma_dw z_var BGL_form_factor w_range * #1e15)%py.

(** ** Vocabulary of the further properties *)

(** [raises m s e]: run against [s], the body [m] raises [e] and leaves
    [s] as it was. *)
Definition raises {A} (m : M A) (s : object) (e : exn) : Prop :=
  m s = (Raise e, s).

(** The samples between two real numbers. *)
Definition linspace_R (a b : R) : list R :=
  ((λ i : nat, INR i * ((b - a) / 49) + a) <$> seq 0 49) ++ [b].

(** The kinematic end point of the recoil, (m_B^2 + m_D^2) / (2 m_B m_D). *)
Definition recoil_max (m_B m_D : R) : R :=
  (m_B ^ 2 + m_D ^ 2) / (2 * m_B * m_D).

(** A number that is real and not negative. *)
Definition nonneg (x : num) : Prop := ∃ y, x = Real y ∧ 0 <= y.

(** * Verification *)

(** ** Powers *)

Lemma Int_part_IZR (z : Z) : Int_part (IZR z) = z.
Proof. symmetry. apply Int_part_spec. lra. Qed.

Lemma float_pow_0_r (x : R) : float_pow x 0 = Real 1.
Proof. unfold float_pow. destruct (Req_dec_T 0 0); [done | lra]. Qed.

(** A whole positive exponent: repeated multiplication, for every base. *)
Lemma float_pow_pos (x : R) (p : positive) :
  float_pow x (IZR (Z.pos p)) = Real (x ^ Pos.to_nat p).
Proof.
  assert (0 < IZR (Z.pos p)) by (apply IZR_lt; lia).
  unfold float_pow.
  destruct (Req_dec_T (IZR (Z.pos p)) 0) as [|_]; [lra|].
  destruct (Req_dec_T x 0) as [->|_].
  - destruct (Rlt_dec 0 (IZR (Z.pos p))); [|lra].
    rewrite pow_i; [done | lia].
  - rewrite Int_part_IZR.
    destruct (Req_dec_T (IZR (Z.pos p)) (IZR (Z.pos p))); done.
Qed.

(** A whole negative exponent: the reciprocal, unless the base is zero. *)
Lemma float_pow_neg (x : R) (p : positive) :
  x ≠ 0 → float_pow x (IZR (Z.neg p)) = Real (/ x ^ Pos.to_nat p).
Proof.
  intros Hx.
  assert (IZR (Z.neg p) < 0) by (apply IZR_lt; lia).
  unfold float_pow.
  destruct (Req_dec_T (IZR (Z.neg p)) 0) as [|_]; [lra|].
  destruct (Req_dec_T x 0) as [|_]; [done|].
  rewrite Int_part_IZR.
  destruct (Req_dec_T (IZR (Z.neg p)) (IZR (Z.neg p))); done.
Qed.

Lemma float_pow_neg_0 (p : positive) : float_pow 0 (IZR (Z.neg p)) = NaN.
Proof.
  assert (IZR (Z.neg p) < 0) by (apply IZR_lt; lia).
  unfold float_pow.
  destruct (Req_dec_T (IZR (Z.neg p)) 0) as [|_]; [lra|].
  destruct (Req_dec_T 0 0) as [_|]; [|done].
  destruct (Rlt_dec 0 (IZR (Z.neg p))); [lra | done].
Qed.

Lemma float_pow_INR (x : R) (n : nat) : float_pow x (INR n) = Real (x ^ n).
Proof.
  destruct n as [|n]; [apply float_pow_0_r|].
  rewrite INR_IZR_INZ.
  replace (Z.of_nat (S n)) with (Z.pos (Pos.of_succ_nat n)) by lia.
  rewrite float_pow_pos. by rewrite SuccNat2Pos.id_succ.
Qed.

(** A half-integer exponent [k + 1/2] is not whole. *)
Lemma half_not_whole (k : Z) : IZR k + / 2 ≠ IZR (Int_part (IZR k + / 2)).
Proof.
  rewrite <- (Int_part_spec (IZR k + / 2) k) by lra. lra.
Qed.

(** [x ** (1/2)] is the square root on the non-negative numbers ... *)
Lemma float_pow_half (x : R) : 0 <= x → float_pow x (1 / 2) = Real (sqrt x).
Proof.
  intros Hx. unfold float_pow.
  destruct (Req_dec_T (1 / 2) 0) as [|_]; [lra|].
  destruct (Req_dec_T x 0) as [->|Hx0].
  - destruct (Rlt_dec 0 (1 / 2)); [|lra]. by rewrite sqrt_0.
  - destruct (Req_dec_T _ _) as [Hw|_].
    { exfalso. apply (half_not_whole 0).
      replace (IZR 0 + / 2) with (1 / 2) by lra. done. }
    destruct (Rlt_dec 0 x); [|lra].
    replace (1 / 2) with (/ 2) by lra. by rewrite Rpower_sqrt.
Qed.

(** ... and [x ** (3/2)] is its cube. *)
Lemma float_pow_three_halves (x : R) :
  0 <= x → float_pow x (3 / 2) = Real (sqrt x ^ 3).
Proof.
  intros Hx. unfold float_pow.
  destruct (Req_dec_T (3 / 2) 0) as [|_]; [lra|].
  destruct (Req_dec_T x 0) as [->|Hx0].
  - destruct (Rlt_dec 0 (3 / 2)); [|lra]. rewrite sqrt_0. f_equal. lra.
  - destruct (Req_dec_T _ _) as [Hw|_].
    { exfalso. apply (half_not_whole 1).
      replace (IZR 1 + / 2) with (3 / 2) by lra. done. }
    destruct (Rlt_dec 0 x) as [Hpos|]; [|lra].
    f_equal. replace (3 / 2) with (1 + / 2) by lra.
    rewrite Rpower_plus, Rpower_1, Rpower_sqrt by done.
    rewrite <- (sqrt_sqrt x) at 1 by done. ring.
Qed.

(** Outside the non-negative numbers a fractional power has no real
    value. *)
Lemma float_pow_three_halves_neg (x : R) : x < 0 → float_pow x (3 / 2) = NaN.
Proof.
  intros Hx. unfold float_pow.
  destruct (Req_dec_T (3 / 2) 0) as [|_]; [lra|].
  destruct (Req_dec_T x 0) as [|_]; [lra|].
  destruct (Req_dec_T _ _) as [Hw|_].
  { exfalso. apply (half_not_whole 1).
    replace (IZR 1 + / 2) with (3 / 2) by lra. done. }
  destruct (Rlt_dec 0 x); [lra | done].
Qed.

Lemma ndiv_Real (x y : R) : y ≠ 0 → ndiv (Real x) (Real y) = Real (x / y).
Proof. intros. unfold ndiv. by destruct (Req_dec_T y 0). Qed.

Lemma nsqrt_Real (x : R) : 0 <= x → nsqrt (Real x) = Real (sqrt x).
Proof. intros. unfold nsqrt. destruct (Rlt_dec x 0); [lra | done]. Qed.

(** ** Running method bodies *)

Lemma returns_ret {A} (a : A) s : returns (ret a) s a.
Proof. done. Qed.

Lemma returns_const v s : returns (const v) s v.
Proof. done. Qed.

Lemma returns_self s : returns self s s.
Proof. done. Qed.

Lemma returns_lift {A} (r : result A) a s : r = Ok a → returns (lift r) s a.
Proof. by intros ->. Qed.

Lemma returns_getattr name v s :
  dict s !! name = Some v → returns (getattr name) s v.
Proof. unfold returns, getattr. by intros ->. Qed.

Lemma returns_bind {A B} (m : M A) (k : A → M B) s a b :
  returns m s a → returns (k a) s b → returns (bind m k) s b.
Proof. unfold returns, bind. by intros ->. Qed.

Lemma bind_run {A B} (m : M A) (k : A → M B) s a :
  returns m s a → bind m k s = k a s.
Proof. unfold returns, bind. by intros ->. Qed.

Lemma returns_binop op (a b : E) s x y v :
  returns a s x → returns b s y → op x y = Ok v →
  returns (binop op a b) s v.
Proof.
  intros Ha Hb Hop. unfold binop.
  eapply returns_bind; [done|]. eapply returns_bind; [done|].
  by apply returns_lift.
Qed.

(** A failing operator is the only thing that fails in an expression whose
    operands return. *)
Lemma binop_run op (a b : E) s x y :
  returns a s x → returns b s y → binop op a b s = (op x y, s).
Proof. unfold returns, binop, bind, lift. by intros -> ->. Qed.

(** ** Elementwise evaluation: the rules *)

Lemma den_arg i : den i true (λ w, w) (arg i).
Proof. destruct i; simpl; [done|]. by rewrite list_fmap_id. Qed.

Lemma den_float i c : den i false (λ _, c) (VFloat c).
Proof. destruct i; simpl; eauto. Qed.

Lemma den_flag i b b' g v : b = b' → den i b g v → den i b' g v.
Proof. by intros ->. Qed.

Lemma den_ext i b g g' v : (∀ w, g w = g' w) → den i b g v → den i b g' v.
Proof.
  intros Hg. destruct i as [w|ws]; simpl.
  - by rewrite Hg.
  - destruct b.
    + intros ->. f_equal. by apply list_fmap_ext.
    + intros (c & -> & Hc). exists c. split; [done|]. intros w.
      by rewrite <- Hg.
Qed.

Lemma den_arith f i b1 b2 g h x y :
  den i b1 g x → den i b2 h y →
  ∃ v, arith f x y = Ok v ∧ den i (b1 || b2) (λ w, f (g w) (h w)) v.
Proof.
  destruct i as [w|ws]; simpl.
  - intros -> ->. eauto.
  - destruct b1, b2; simpl.
    + intros -> ->. simpl. unfold broadcast.
      rewrite decide_True by (by rewrite !length_fmap).
      eexists; split; [done|]. f_equal.
      rewrite zip_with_fmap_l, zip_with_fmap_r. apply zip_with_diag.
    + intros -> (c & -> & Hc). simpl. eexists; split; [done|]. f_equal.
      rewrite <- list_fmap_compose. apply list_fmap_ext.
      intros _ w _. simpl. by rewrite Hc.
    + intros (c & -> & Hc) ->. simpl. eexists; split; [done|]. f_equal.
      rewrite <- list_fmap_compose. apply list_fmap_ext.
      intros _ w _. simpl. by rewrite Hc.
    + intros (c & -> & Hc) (d & -> & Hd). simpl. eexists; split; [done|].
      exists (f c d). split; [done|]. intros w. by rewrite Hc, Hd.
Qed.

Lemma den_not_list i b g xs : ¬ den i b g (VList xs).
Proof.
  destruct i as [w|ws]; simpl; [done|].
  destruct b; [done|]. by intros (c & ? & _).
Qed.

Lemma den_vadd i b1 b2 g h x y :
  den i b1 g x → den i b2 h y →
  ∃ v, vadd x y = Ok v ∧ den i (b1 || b2) (λ w, nadd (g w) (h w)) v.
Proof.
  intros Hx Hy. destruct (den_arith nadd _ _ _ _ _ _ _ Hx Hy) as (v & Hv & ?).
  exists v. split; [|done].
  destruct x; try done. by apply den_not_list in Hx.
Qed.

Lemma den_ufunc f i b g x :
  den i b g x → ∃ v, ufunc f x = Ok v ∧ den i b (λ w, f (g w)) v.
Proof.
  destruct i as [w|ws]; simpl.
  - intros ->. eauto.
  - destruct b.
    + intros ->. simpl. eexists; split; [done|].
      by rewrite <- list_fmap_compose.
    + intros (c & -> & Hc). simpl. eexists; split; [done|].
      exists (f c). split; [done|]. intros w. by rewrite Hc.
Qed.

Lemma evals_val i b g v s : den i b g v → evals i b g (const v) s.
Proof. intros. exists v. split; [apply returns_const | done]. Qed.

Lemma evals_lit i c s : evals i false (λ _, c) (const (VFloat c)) s.
Proof. apply evals_val, den_float. Qed.

Lemma evals_getattr i name c s :
  dict s !! name = Some (VFloat c) → evals i false (λ _, c) (getattr name) s.
Proof.
  intros. exists (VFloat c). split; [by apply returns_getattr|].
  apply den_float.
Qed.

Lemma evals_bind i b g b' g' (m : E) (k : value → E) s :
  evals i b g m s → (∀ v, den i b g v → evals i b' g' (k v) s) →
  evals i b' g' (bind m k) s.
Proof.
  intros (v & Hm & Hv) Hk. destruct (Hk v Hv) as (v' & Hk' & Hv').
  exists v'. split; [|done]. by eapply returns_bind.
Qed.

Lemma evals_ufunc f i b g v s :
  den i b g v → evals i b (λ w, f (g w)) (lift (ufunc f v)) s.
Proof.
  intros Hv. destruct (den_ufunc f _ _ _ _ Hv) as (v' & Hf & Hv').
  exists v'. split; [by apply returns_lift | done].
Qed.

Lemma evals_arith f i b1 b2 g h (a b : E) s :
  evals i b1 g a s → evals i b2 h b s →
  evals i (b1 || b2) (λ w, f (g w) (h w)) (binop (arith f) a b) s.
Proof.
  intros (x & Ha & Hx) (y & Hb & Hy).
  destruct (den_arith f _ _ _ _ _ _ _ Hx Hy) as (v & Hop & Hv).
  exists v. split; [by eapply returns_binop | done].
Qed.

Lemma evals_add i b1 b2 g h (a b : E) s :
  evals i b1 g a s → evals i b2 h b s →
  evals i (b1 || b2) (λ w, nadd (g w) (h w)) (binop vadd a b) s.
Proof.
  intros (x & Ha & Hx) (y & Hb & Hy).
  destruct (den_vadd _ _ _ _ _ _ _ Hx Hy) as (v & Hop & Hv).
  exists v. split; [by eapply returns_binop | done].
Qed.

Lemma evals_flag i b b' g e s : b = b' → evals i b g e s → evals i b' g e s.
Proof. by intros ->. Qed.

Lemma evals_ext i b g g' e s :
  (∀ w, g w = g' w) → evals i b g e s → evals i b g' e s.
Proof.
  intros Hg (v & ? & ?). exists v. split; [done|]. by eapply den_ext.
Qed.

(** On a scalar argument an expression returns the float its function
    gives. *)
Lemma evals_scalar w b g e s x :
  evals (Scalar w) b g e s → g w = x → returns e s (VFloat x).
Proof. by intros (v & ? & ->) <-. Qed.

(** On an array argument an expression that depends on it returns the
    array of what its function gives at each entry. *)
Lemma evals_array ws g e s :
  evals (Array ws) true g e s → returns e s (VArray (g <$> ws)).
Proof. by intros (v & ? & ->). Qed.

(** One step of evaluation, chosen by the head of the expression. *)
Ltac evals_step :=
  lazymatch goal with
  | |- evals _ _ _ (bind _ _) _ =>
      eapply evals_bind; [|intros ? ?; cbv beta]
  | |- evals _ _ _ (binop vadd _ _) _ => eapply evals_add
  | |- evals _ _ _ (binop vsub _ _) _ => eapply (evals_arith nsub)
  | |- evals _ _ _ (binop vmul _ _) _ => eapply (evals_arith nmul)
  | |- evals _ _ _ (binop vdiv _ _) _ => eapply (evals_arith ndiv)
  | |- evals _ _ _ (binop vpow _ _) _ => eapply (evals_arith npow)
  | |- evals _ _ _ (getattr _) _ => eapply evals_getattr; eassumption
  | |- evals _ _ _ (lift (ufunc _ _)) _ => eapply evals_ufunc; eassumption
  | |- evals _ _ _ (lift (np_sqrt _)) _ => eapply evals_ufunc; eassumption
  | |- evals ?i _ _ (const (arg ?i)) _ => eapply evals_val, den_arg
  | |- evals _ _ _ (const (VFloat _)) _ => eapply evals_lit
  | |- evals _ _ _ (const ?v) _ => eapply evals_val; eassumption
  end.

(** ** The outer function *)

Lemma phi_plus_evals i b g z r s :
  dict s !! "r" = Some (VFloat r) →
  den i b g z →
  evals i b (λ w, phi_num r (g w)) (phi_plus z) s.
Proof.
  intros Hr Hz. unfold phi_plus.
  eapply evals_flag; [|eapply evals_ext; [|repeat evals_step]].
  - by destruct b.
  - done.
Qed.

(** ** Construction *)

Ltac run_init :=
  repeat (progress (cbv beta iota zeta delta
            [bind binop setattr getattr lift ret const dict cls vdiv arith])
          || rewrite lookup_insert_eq
          || rewrite lookup_insert_ne by done).

Section Construction.

Variable PDG_G_F : R.

Lemma BToD_init_run (mB mD : num) (V : value) eta s :
  BToD_init PDG_G_F (VFloat mB) (VFloat mD) V eta s =
  (Ok (), Object (cls s)
     (base_dict PDG_G_F (VFloat mB) (VFloat mD) V (default #1.0066 eta)
        (ndiv mD mB) (dict s))).
Proof. unfold BToD_init, base_dict. by run_init. Qed.

Lemma BToDCLN_init_run (mB mD : num) (V : value) eta g1 rho2 s :
  BToDCLN_init PDG_G_F (VFloat mB) (VFloat mD) V eta g1 rho2 s =
  (Ok (), Object (cls s)
     (<["rho2" := if is_None (default VNone rho2) then #1.15
                  else default VNone rho2]>
     (<["G_1" := if is_None (default VNone g1) then #1.074
                 else default VNone g1]>
     (base_dict PDG_G_F (VFloat mB) (VFloat mD) V (default #1.0066 eta)
        (ndiv mD mB) (dict s))))).
Proof.
  unfold BToDCLN_init. cbv zeta. unfold bind at 1.
  rewrite BToD_init_run. by run_init.
Qed.

Lemma BToDBGL_init_run (mB mD : num) (V : value) eta a s :
  BToDBGL_init PDG_G_F (VFloat mB) (VFloat mD) V eta a s =
  (Ok (), Object (cls s)
     (<["expansion_coefficients" :=
          if is_None (default VNone a) then VList [] else default VNone a]>
     (base_dict PDG_G_F (VFloat mB) (VFloat mD) V (default #1.0066 eta)
        (ndiv mD mB) (dict s)))).
Proof.
  unfold BToDBGL_init. cbv zeta. unfold bind at 1.
  rewrite BToD_init_run. by run_init.
Qed.

Lemma new_BToD (mB mD V : R) (eta : option R) s :
  new BToD (BToD_init PDG_G_F #mB #mD #V (opt_float eta)) = Ok s →
  cls s = BToD ∧ base_model PDG_G_F s mB mD V (default 1.0066 eta).
Proof.
  unfold new. rewrite BToD_init_run. intros [= <-]. split; [done|].
  unfold base_dict. destruct eta; split; by simplify_map_eq.
Qed.

Lemma new_BToDCLN (mB mD V : R) (eta : option R) g1 rho2 s :
  new BToDCLN
    (BToDCLN_init PDG_G_F #mB #mD #V (opt_float eta) g1 rho2) = Ok s →
  cls s = BToDCLN ∧ base_model PDG_G_F s mB mD V (default 1.0066 eta) ∧
  dict s !! "G_1" =
    Some (if is_None (default VNone g1) then #1.074 else default VNone g1) ∧
  dict s !! "rho2" =
    Some (if is_None (default VNone rho2) then #1.15
          else default VNone rho2).
Proof.
  unfold new. rewrite BToDCLN_init_run. intros [= <-]. split; [done|].
  unfold base_dict.
  split; [destruct eta; split; by simplify_map_eq|].
  split; by simplify_map_eq.
Qed.

Lemma new_BToDBGL (mB mD V : R) (eta : option R) a s :
  new BToDBGL (BToDBGL_init PDG_G_F #mB #mD #V (opt_float eta) a) = Ok s →
  cls s = BToDBGL ∧ base_model PDG_G_F s mB mD V (default 1.0066 eta) ∧
  dict s !! "expansion_coefficients" =
    Some (if is_None (default VNone a) then VList [] else default VNone a).
Proof.
  unfold new. rewrite BToDBGL_init_run. intros [= <-]. split; [done|].
  unfold base_dict.
  split; [destruct eta; split; by simplify_map_eq|].
  by simplify_map_eq.
Qed.

End Construction.

(** ** Methods leave the object alone *)

Lemma frame_ret {A} (a : A) : frame (ret a).
Proof. done. Qed.

Lemma frame_const v : frame (const v).
Proof. done. Qed.

Lemma frame_raise {A} e : frame (@raise A e).
Proof. done. Qed.

Lemma frame_lift {A} (r : result A) : frame (lift r).
Proof. done. Qed.

Lemma frame_self : frame self.
Proof. done. Qed.

Lemma frame_getattr name : frame (getattr name).
Proof. intros s. unfold getattr. by destruct (dict s !! name). Qed.

Lemma frame_bound m : frame (bound m).
Proof. done. Qed.

Lemma frame_bind {A B} (m : M A) (k : A → M B) :
  frame m → (∀ a, frame (k a)) → frame (bind m k).
Proof.
  intros Hm Hk s. unfold bind. specialize (Hm s).
  destruct (m s) as [[a|e] s']; simpl in *; subst s'; [apply Hk | done].
Qed.

Lemma frame_binop op a b : frame a → frame b → frame (binop op a b).
Proof.
  intros. unfold binop.
  repeat (apply frame_bind; [done|intros ?]). apply frame_lift.
Qed.

(** Assignment is what [frame] rules out. *)
Lemma setattr_writes name v s : dict (setattr name v s).2 !! name = Some v.
Proof. simpl. apply lookup_insert_eq. Qed.

Create HintDb frame discriminated.
#[global] Hint Resolve frame_ret frame_const frame_raise frame_lift frame_self
  frame_getattr frame_bound frame_binop : frame.
#[global] Hint Extern 2 (frame (bind _ _)) =>
  apply frame_bind; [|intros ?] : frame.

Section Frame.

Variable z_var : value → result value.
Variable BGL_form_factor :
  value → (value → result value) → (value → result value) → value →
  result value.

Lemma frame_phi_plus z : frame (phi_plus z).
Proof. unfold phi_plus. auto 20 with frame. Qed.

Lemma frame_form_factor_call w :
  frame (form_factor_call z_var BGL_form_factor w).
Proof. unfold form_factor_call. auto 20 with frame. Qed.

Lemma frame_fplus w : frame (fplus z_var BGL_form_factor w).
Proof. unfold fplus. auto using frame_form_factor_call with frame. Qed.

Lemma frame_G w : frame (G z_var BGL_form_factor w).
Proof.
  unfold G. apply frame_bind; [auto with frame|]. intros s.
  destruct (cls s).
  - unfold BToD_G. auto with frame.
  - unfold BToDCLN_G. auto 20 with frame.
  - unfold BToDBGL_G. auto 20 using frame_form_factor_call with frame.
Qed.

Lemma frame_dGamma_dw w : frame (dGamma_dw z_var BGL_form_factor w).
Proof. unfold dGamma_dw. auto 30 using frame_G with frame. Qed.

End Frame.

(** ** The series evaluator *)

Lemma series_den i bz gz z : den i bz gz z → ∀ a n bacc gacc vacc,
  den i bacc gacc vacc →
  ∃ ts v, series_terms z n a = Ok ts ∧
    foldl (λ acc t, and_then acc (λ s, vadd s t)) (Ok vacc) ts = Ok v ∧
    den i (sum_flag bacc bz a) (λ w, series_num (gz w) n a (gacc w)) v.
Proof.
  intros Hz. induction a as [|a_i a IH]; intros n bacc gacc vacc Hacc.
  - exists [], vacc. done.
  - destruct (den_arith npow i bz false gz (λ _, Real (INR n)) z #(INR n))
      as (zn & Hpow & Hzn); [done | apply den_float|].
    destruct (den_arith nmul i false _ (λ _, a_i) _ (VFloat a_i) zn (den_float _ _) Hzn)
      as (t & Hmul & Ht).
    destruct (den_vadd i _ _ _ _ vacc t Hacc Ht) as (acc' & Hadd & Hacc').
    destruct (IH (S n) _ _ _ Hacc') as (ts & v & Hts & Hsum & Hv).
    exists (t :: ts), v. cbn [series_terms]. unfold vpow, vmul.
    rewrite Hpow. cbn [and_then]. rewrite Hmul. cbn [and_then].
    rewrite Hts. cbn [and_then foldl]. rewrite Hadd. done.
Qed.

Lemma BGL_form_factor_spec_den i bz gz z p phi gp gphi pv phiv cs :
  den i bz gz z →
  p z = Ok pv → den i false gp pv →
  phi z = Ok phiv → den i true gphi phiv →
  ∃ v, BGL_form_factor_spec z p phi (VList cs) = Ok v ∧
    den i true
      (λ w, ndiv (series_num (gz w) 0 cs (Real 0)) (nmul (gp w) (gphi w))) v.
Proof.
  intros Hz Hp Hpv Hphi Hphiv.
  destruct (series_den i bz gz z Hz cs 0%nat false (λ _, Real 0) #0)
    as (ts & series & Hts & Hsum & Hseries); [apply den_float|].
  destruct (den_arith nmul _ _ _ _ _ _ _ Hpv Hphiv) as (d & Hd & Hdv).
  destruct (den_arith ndiv _ _ _ _ _ _ _ Hseries Hdv) as (v & Hv & Hvv).
  exists v. split; [|revert Hvv; by rewrite orb_true_r].
  unfold BGL_form_factor_spec, py_sum, vmul, vdiv. cbn [iterate and_then].
  rewrite Hts. cbn [and_then]. rewrite Hsum, Hp, Hphi. cbn [and_then].
  by rewrite Hd.
Qed.

(** ** The methods as elementwise functions *)

Section Methods.

Variable z_var : value → result value.
Variable BGL_form_factor :
  value → (value → result value) → (value → result value) → value →
  result value.

(** Method resolution. *)
Lemma G_BToD w s :
  cls s = BToD → G z_var BGL_form_factor w s = BToD_G w s.
Proof. unfold G, bind, self. by intros ->. Qed.

Lemma G_BToDCLN w s :
  cls s = BToDCLN → G z_var BGL_form_factor w s = BToDCLN_G z_var w s.
Proof. unfold G, bind, self. by intros ->. Qed.

Lemma G_BToDBGL w s :
  cls s = BToDBGL →
  G z_var BGL_form_factor w s = BToDBGL_G z_var BGL_form_factor w s.
Proof. unfold G, bind, self. by intros ->. Qed.

Lemma BToDCLN_G_evals i b gz w z G_1 rho2 s :
  dict s !! "G_1" = Some (VFloat G_1) →
  dict s !! "rho2" = Some (VFloat rho2) →
  z_var w = Ok z → den i b gz z →
  evals i b (λ x, CLN_num G_1 rho2 (gz x)) (BToDCLN_G z_var w) s.
Proof.
  intros HG1 Hrho Hzv Hz. unfold BToDCLN_G.
  evals_step; [evals_step|].
  eapply evals_bind; [exists z; split; [by apply returns_lift | done]|].
  intros z' Hz'. cbv beta.
  eapply evals_flag; [|eapply evals_ext; [|repeat evals_step]].
  - by destruct b.
  - done.
Qed.

Lemma dGamma_dw_evals i gw gG w G_F m_B m_D eta_EW V_cb s :
  dict s !! "m_B" = Some (VFloat m_B) →
  dict s !! "m_D" = Some (VFloat m_D) →
  dict s !! "V_cb" = Some (VFloat V_cb) →
  dict s !! "eta_EW" = Some (VFloat eta_EW) →
  dict s !! "G_F" = Some (VFloat G_F) →
  den i true gw w →
  evals i true gG (G z_var BGL_form_factor w) s →
  evals i true
    (λ x, rate_num G_F m_B m_D eta_EW V_cb (gw x) (gG x))
    (dGamma_dw z_var BGL_form_factor w) s.
Proof.
  intros HmB HmD HV Heta HGF Hw HG. unfold dGamma_dw, np_pi.
  eapply evals_flag; [|eapply evals_ext; [|
    repeat first [eassumption | evals_step]]].
  - done.
  - done.
Qed.

End Methods.

Section SeriesModel.

Variable z_var : value → result value.

Lemma form_factor_call_evals i gz w z r a s :
  dict s !! "r" = Some (VFloat r) →
  dict s !! "expansion_coefficients" = Some (VList a) →
  z_var w = Ok z → den i true gz z →
  evals i true (λ x, series_sum_num r a (gz x))
    (form_factor_call z_var BGL_form_factor_spec w) s.
Proof.
  intros Hr Ha Hzv Hz.
  destruct (phi_plus_evals i true gz z r s Hr Hz) as (phiv & Hphi & Hphiv).
  destruct (BGL_form_factor_spec_den i true gz z (λ _, Ok #1)
              (λ z, (phi_plus z s).1) (λ _, Real 1)
              (λ x, phi_num r (gz x)) #1 phiv a)
    as (v & Hv & Hvv); [done | done | apply den_float | by rewrite Hphi
                       | done|].
  exists v. split; [|done]. unfold form_factor_call.
  eapply returns_bind; [by apply returns_lift|].
  eapply returns_bind; [done|].
  eapply returns_bind; [by apply returns_getattr|].
  by apply returns_lift.
Qed.

Lemma fplus_evals i gz w z r a s :
  dict s !! "r" = Some (VFloat r) →
  dict s !! "expansion_coefficients" = Some (VList a) →
  z_var w = Ok z → den i true gz z →
  evals i true (λ x, npow (series_sum_num r a (gz x)) (Real 2))
    (fplus z_var BGL_form_factor_spec w) s.
Proof.
  intros Hr Ha Hzv Hz. unfold fplus.
  eapply evals_flag; [|eapply evals_ext; [|
    repeat first [by eapply form_factor_call_evals | evals_step]]].
  - done.
  - done.
Qed.

Lemma BToDBGL_G_evals i gz w z r a s :
  dict s !! "r" = Some (VFloat r) →
  dict s !! "expansion_coefficients" = Some (VList a) →
  z_var w = Ok z → den i true gz z →
  evals i true (λ x, BGL_num r a (gz x))
    (BToDBGL_G z_var BGL_form_factor_spec w) s.
Proof.
  intros Hr Ha Hzv Hz. unfold BToDBGL_G.
  eapply evals_flag; [|eapply evals_ext; [|
    repeat first [by eapply form_factor_call_evals | evals_step]]].
  - done.
  - done.
Qed.

End SeriesModel.

(** ** Closed forms on the real numbers *)

Ltac nsimpl :=
  repeat first
    [ progress cbn [nadd nsub nmul lift2 npow]
    | rewrite float_pow_pos
    | rewrite ndiv_Real by lra
    | rewrite nsqrt_Real by lra ].

Lemma CLN_num_Real (G_1 rho2 z : R) :
  CLN_num (Real G_1) (Real rho2) (Real z) =
  Real ((G_1 * (1 - 8 * rho2 * z + (51 * rho2 - 10) * z ^ 2
               - (252 * rho2 - 84) * z ^ 3)) ^ 2).
Proof. unfold CLN_num. by nsimpl. Qed.

Lemma prefactor_num_Real (r : R) :
  r ≠ -1 → prefactor_num (Real r) = Real (4 * r / (1 + r) ^ 2).
Proof.
  intros Hr. unfold prefactor_num. nsimpl.
  rewrite ndiv_Real; [done|]. simpl. nra.
Qed.

(** The bracket of the outer function is positive on the unit interval. *)
Lemma bracket_pos (r z : R) :
  0 <= r → -1 <= z < 1 → 0 < (1 + r) * (1 - z) + 2 * sqrt r * (1 + z).
Proof.
  intros Hr Hz. pose proof (sqrt_pos r).
  assert (0 < (1 + r) * (1 - z)) by nra.
  assert (0 <= 2 * sqrt r * (1 + z)) by nra. lra.
Qed.

Lemma phi_num_Real (r z : R) :
  0 <= r → -1 <= z < 1 →
  phi_num (Real r) (Real z) = Real (outer_function r z).
Proof.
  intros Hr Hz. pose proof (bracket_pos r z Hr Hz).
  unfold phi_num, outer_function. nsimpl.
  rewrite float_pow_half by lra.
  rewrite float_pow_neg by lra. done.
Qed.

Lemma outer_function_pos (r z : R) :
  0 <= r → -1 < z < 1 → 0 < outer_function r z.
Proof.
  intros Hr Hz.
  assert (0 < (1 + r) * (1 - z) + 2 * sqrt r * (1 + z))
    by (apply bracket_pos; lra).
  assert (0 < sqrt (1 - z)) by (apply sqrt_lt_R0; lra).
  assert (0 < (1 + z) ^ 2) by (apply pow_lt; lra).
  assert (0 < / ((1 + r) * (1 - z) + 2 * sqrt r * (1 + z)) ^ 5)
    by (apply Rinv_0_lt_compat, pow_lt; lra).
  unfold outer_function.
  do 3 (apply Rmult_lt_0_compat; [|done]). lra.
Qed.

Lemma rate_num_Real (G_F m_B m_D eta_EW V_cb w g : R) :
  0 <= w ^ 2 - 1 →
  rate_num (Real G_F) (Real m_B) (Real m_D) (Real eta_EW) (Real V_cb)
    (Real w) (Real g) =
  Real (G_F ^ 2 * m_D ^ 3 / 48 / PI ^ 3 * (m_B + m_D) ^ 2
        * sqrt (w ^ 2 - 1) ^ 3 * eta_EW ^ 2 * V_cb ^ 2 * g).
Proof.
  intros Hw. pose proof PI_RGT_0.
  assert (PI ^ 3 ≠ 0) by (apply pow_nonzero; lra).
  unfold rate_num. nsimpl.
  rewrite ndiv_Real by done. nsimpl.
  rewrite float_pow_three_halves by done. done.
Qed.

Lemma series_num_Real (z : R) (a : list R) : ∀ n acc,
  series_num (Real z) n (Real <$> a) (Real acc) = Real (series_R z n a acc).
Proof.
  induction a as [|a_i a IH]; intros n acc; [done|].
  simpl. rewrite float_pow_INR. apply IH.
Qed.

Lemma z_num_Real (w : R) :
  -1 <= w →
  z_num (Real w) =
  Real ((sqrt (w + 1) - sqrt 2) / (sqrt (w + 1) + sqrt 2)).
Proof.
  intros Hw. unfold z_num. nsimpl.
  pose proof (sqrt_pos (w + 1)).
  assert (0 < sqrt 2) by (apply sqrt_lt_R0; lra).
  by rewrite ndiv_Real by lra.
Qed.

Lemma z_num_1 : z_num (Real 1) = Real 0.
Proof.
  rewrite z_num_Real by lra. f_equal.
  replace (1 + 1) with 2 by lra. unfold Rdiv. ring.
Qed.

(** * The claims *)

(** A scalar call: what the elementwise function gives at the argument. *)
Lemma phi_plus_float (r z : R) s :
  dict s !! "r" = Some #r → 0 <= r → -1 <= z < 1 →
  returns (phi_plus #z) s #(outer_function r z).
Proof.
  intros Hr Hr0 Hz.
  eapply (evals_scalar (Real z));
    [apply (phi_plus_evals _ false (λ _, Real z)); [done | done]|].
  by apply phi_num_Real.
Qed.

(** C1 (amended): at z = 0 the outer function of a BGL model with masses
    m_B > 0 and m_D >= 0 returns 1.1213 / (1 + r + 2 sqrt r)^5 for the
    mass ratio r = m_D / m_B, a value that depends on r; it is 1.1213 when
    r = 0, that is for m_D = 0. *)
Theorem phi_plus_at_0 (PDG_G_F m_B m_D V_cb : R) (eta_EW : option R)
    (a : option value) (s : object) :
  0 < m_B → 0 <= m_D →
  new BToDBGL
    (BToDBGL_init PDG_G_F #m_B #m_D #V_cb (opt_float eta_EW) a) = Ok s →
  let r := m_D / m_B in
  returns (phi_plus #0) s #(1.1213 * / (1 + r + 2 * sqrt r) ^ 5) ∧
  (m_D = 0 → returns (phi_plus #0) s #1.1213).
Proof.
  intros HmB HmD Hnew r.
  assert (0 <= r) as Hr.
  { unfold r, Rdiv. apply Rmult_le_pos; [done|].
    apply Rlt_le, Rinv_0_lt_compat. done. }
  destruct (new_BToDBGL _ _ _ _ _ _ _ Hnew) as (_ & [_ _ _ _ _ Hdict] & _).
  rewrite ndiv_Real in Hdict by lra. fold r in Hdict.
  assert (returns (phi_plus #0) s #(1.1213 * / (1 + r + 2 * sqrt r) ^ 5))
    as Hvalue.
  { pose proof (phi_plus_float r 0 s Hdict Hr) as Hphi.
    unfold returns in *. rewrite Hphi by lra. do 3 f_equal.
    unfold outer_function.
    replace (1 - 0) with 1 by ring. rewrite sqrt_1.
    replace ((1 + r) * 1 + 2 * sqrt r * (1 + 0)) with (1 + r + 2 * sqrt r)
      by ring.
    f_equal. ring. }
  split; [exact Hvalue|].
  intros HmD0. assert (r = 0) as Hr0 by (unfold r; rewrite HmD0; lra).
  rewrite Hr0, sqrt_0 in Hvalue.
  replace (1.1213 * / (1 + 0 + 2 * 0) ^ 5) with 1.1213 in Hvalue; [done|].
  replace (1 + 0 + 2 * 0) with 1 by ring. rewrite pow1, Rinv_1. ring.
Qed.

Lemma sqrt_quarter : sqrt (1 / 4) = 1 / 2.
Proof.
  replace (1 / 4) with ((1 / 2) * (1 / 2)) by lra.
  apply sqrt_square. lra.
Qed.

(** C1 (counterexample): for m_B = 4 and m_D = 1 the mass ratio is 1/4, its
    root 1/2, the bracket 9/4, and [phi_plus(0)] is 1.1213 * (4/9)^5, which
    is not 1.1213. *)
Lemma phi_plus_at_0_counterexample :
  ∃ s x,
    new BToDBGL (BToDBGL_init G_F_GeV #4 #1 #0.04 None None) = Ok s ∧
    returns (phi_plus #0) s #x ∧ x = 1.1213 * (4 / 9) ^ 5 ∧ x ≠ 1.1213.
Proof.
  eexists. eexists. split; [|split; [|split]].
  - unfold new. rewrite (BToDBGL_init_run G_F_GeV (Real 4) (Real 1)).
    reflexivity.
  - apply (phi_plus_float (1 / 4) 0); [|lra|lra].
    unfold base_dict. cbn [dict].
    rewrite lookup_insert_ne by done. rewrite lookup_insert_eq.
    by rewrite ndiv_Real by lra.
  - unfold outer_function.
    rewrite sqrt_quarter. replace (1 - 0) with 1 by ring. rewrite sqrt_1.
    field.
  - unfold outer_function.
    rewrite sqrt_quarter. replace (1 - 0) with 1 by ring. rewrite sqrt_1.
    lra.
Qed.

Lemma phi_plus_at_0_witness :
  ∃ s s0,
    new BToDBGL (BToDBGL_init G_F_GeV #5.279 #1.870 #0.0411 None None)
      = Ok s ∧
    returns (phi_plus #0) s
      #(1.1213 * / (1 + 1.870 / 5.279 + 2 * sqrt (1.870 / 5.279)) ^ 5) ∧
    new BToDBGL (BToDBGL_init G_F_GeV #5.279 #0 #0.0411 None None)
      = Ok s0 ∧
    returns (phi_plus #0) s0 #1.1213.
Proof.
  eexists. eexists.
  assert (0 < 5.279) as HmB by lra.
  assert (0 <= 1.870) as HmD by lra.
  assert (0 <= 0) as HmD0 by lra.
  assert (∀ m_D : R,
            new BToDBGL (BToDBGL_init G_F_GeV #5.279 #m_D #0.0411 None None)
            = Ok (Object BToDBGL
                    (<["expansion_coefficients" := VList []]>
                       (base_dict G_F_GeV #5.279 #m_D #0.0411 #1.0066
                          (ndiv (Real m_D) (Real 5.279)) ∅))))
    as Hbuilt.
  { intros m_D. unfold new.
    by rewrite (BToDBGL_init_run G_F_GeV (Real 5.279) (Real m_D)). }
  pose proof (Hbuilt 1.870) as Hnew. pose proof (Hbuilt 0) as Hnew0.
  split; [exact Hnew|]. split.
  - exact (proj1 (phi_plus_at_0 G_F_GeV 5.279 1.870 0.0411 None None _
                    HmB HmD Hnew)).
  - split; [exact Hnew0|].
    exact (proj2 (phi_plus_at_0 G_F_GeV 5.279 0 0.0411 None None _
                    HmB HmD0 Hnew0) eq_refl).
Defined.


(** ** Scalar calls *)

Lemma new_BToD_example C init s s' :
  init (Object C ∅) = (Ok (), s') → s = s' → new C init = Ok s.
Proof. unfold new. by intros -> ->. Qed.

Lemma CLN_G_float z_var BGL_form_factor s (G_1 rho2 z : R) w :
  cls s = BToDCLN →
  dict s !! "G_1" = Some #G_1 → dict s !! "rho2" = Some #rho2 →
  z_var w = Ok #z →
  returns (G z_var BGL_form_factor w) s #(CLN_form_factor G_1 rho2 z).
Proof.
  intros Hcls HG1 Hrho Hz. unfold returns.
  rewrite G_BToDCLN by done.
  eapply (evals_scalar (Real 0));
    [by eapply (BToDCLN_G_evals _ _ false (λ _, Real z))|].
  apply CLN_num_Real.
Qed.

Lemma dGamma_dw_float z_var BGL_form_factor PDG_G_F s
    (m_B m_D V_cb eta_EW w g : R) :
  base_model PDG_G_F s m_B m_D V_cb eta_EW →
  0 <= w ^ 2 - 1 →
  returns (G z_var BGL_form_factor #w) s #g →
  returns (dGamma_dw z_var BGL_form_factor #w) s
    #(differential_rate PDG_G_F m_B m_D eta_EW V_cb w g).
Proof.
  intros [HmB HmD HV Heta HGF _] Hw HG.
  eapply (evals_scalar (Real w)).
  - eapply (dGamma_dw_evals _ _ _ (λ x, x) (λ _, Real g)); try done.
    by exists (VFloat (Real g)).
  - cbv beta. rewrite rate_num_Real by done. f_equal.
    unfold differential_rate. pose proof PI_RGT_0.
    field. lra.
Qed.

(** ** The claims, continued *)

(** C2 (code bug): [BToD.G] is decorated with [abc.abstractmethod], but
    [BToD] is an ordinary class, so the decorator enforces nothing: a base
    model can be built, and calling [G] on it runs the body [pass] and
    returns [None] for any argument.  Nothing fails until [dGamma_dw]
    multiplies a float by that [None], and then with [TypeError]. *)
Theorem BToD_G_returns_None (z_var : value → result value)
    (BGL_form_factor :
       value → (value → result value) → (value → result value) → value →
       result value) (w : value) :
  ∃ s, new BToD (BToD_init G_F_GeV #5.279 #1.870 #0.0411 None) = Ok s ∧
       G z_var BGL_form_factor w s = (Ok VNone, s) ∧
       dGamma_dw z_var BGL_form_factor #1.04 s = (Raise TypeError, s).
Proof.
  eexists. split; [|split].
  - eapply new_BToD_example; [|done].
    apply (BToD_init_run G_F_GeV (Real 5.279) (Real 1.870)).
  - by rewrite G_BToD.
  - set (s := Object _ _).
    assert (base_model G_F_GeV s 5.279 1.870 0.0411 1.0066)
      as [HmB HmD HV Heta HGF _].
    { unfold s, base_dict. split; by simplify_map_eq. }
    unfold dGamma_dw, np_pi.
    rewrite (bind_run _ _ _ _ (returns_getattr _ _ _ HmB)).
    rewrite (bind_run _ _ _ _ (returns_getattr _ _ _ HmD)).
    erewrite binop_run; cycle 1.
    + eapply (evals_scalar (Real 1.04)); [repeat evals_step | done].
    + unfold returns. by rewrite G_BToD.
    + done.
Qed.

Lemma example_CLN_new :
  new BToDCLN
    (BToDCLN_init G_F_GeV #5.279 #1.870 #0.0411 (opt_float None) None None)
  = Ok example_CLN.
Proof.
  eapply new_BToD_example; [|done].
  apply (BToDCLN_init_run G_F_GeV (Real 5.279) (Real 1.870)).
Qed.

Lemma example_BGL_new :
  new BToDBGL
    (BToDBGL_init G_F_GeV #5.279 #1.870 #0.0411 (opt_float None)
       (opt_coefficients (Some example_coefficients)))
  = Ok example_BGL.
Proof.
  eapply new_BToD_example; [|done].
  apply (BToDBGL_init_run G_F_GeV (Real 5.279) (Real 1.870)).
Qed.

Lemma example_BGL_empty_new :
  new BToDBGL
    (BToDBGL_init G_F_GeV #5.279 #1.870 #0.0411 (opt_float None)
       (opt_coefficients None))
  = Ok example_BGL_empty.
Proof.
  eapply new_BToD_example; [|done].
  apply (BToDBGL_init_run G_F_GeV (Real 5.279) (Real 1.870)).
Qed.

Lemma z_var_spec_1 : z_var_spec #1 = Ok #0.
Proof. unfold z_var_spec. simpl. by rewrite z_num_1. Qed.

Lemma mass_ratio (m_B m_D : R) :
  0 < m_B → 0 <= m_D →
  ndiv (Real m_D) (Real m_B) = Real (m_D / m_B) ∧ 0 <= m_D / m_B.
Proof.
  intros. split; [apply ndiv_Real; lra|].
  unfold Rdiv. apply Rmult_le_pos; [done|].
  by apply Rlt_le, Rinv_0_lt_compat.
Qed.

(** An expression whose first operand returns and whose second leaves the
    object alone. *)
Lemma binop_run_l op (a b : E) s x :
  returns a s x → frame b → binop op a b s = (and_then (b s).1 (op x), s).
Proof.
  intros Ha Hb. unfold binop. rewrite (bind_run _ _ _ _ Ha).
  unfold bind, lift. specialize (Hb s).
  destruct (b s) as [[y|e] s']; simpl in *; by subst.
Qed.

Lemma binop_run_r op (a b : E) s y :
  frame a → returns b s y →
  binop op a b s = (and_then (a s).1 (λ x, op x y), s).
Proof.
  intros Ha Hb. unfold binop, bind. specialize (Ha s).
  destruct (a s) as [[x|e] s']; simpl in *; subst; [|done].
  unfold returns in Hb. by rewrite Hb.
Qed.

(** C3: on a BGL model with masses m_B > 0 and m_D >= 0, [G(w)] is the
    product of the prefactor 4 r / (1 + r)^2, r = m_D / m_B, with what
    [fplus(w)] returns, and raises what [fplus(w)] raises; [fplus(w)] is the
    square of what [BGL_form_factor] returns, without the prefactor.  This
    holds for every argument [w], scalar or array, and for whatever
    [z_var] and [BGL_form_factor] compute. *)
Theorem BToDBGL_G_is_prefactor_times_fplus
    (z_var : value → result value)
    (BGL_form_factor :
       value → (value → result value) → (value → result value) → value →
       result value)
    (PDG_G_F m_B m_D V_cb : R) (eta_EW : option R) (a : option value)
    (w : value) (s : object) :
  0 < m_B → 0 <= m_D →
  new BToDBGL
    (BToDBGL_init PDG_G_F #m_B #m_D #V_cb (opt_float eta_EW) a) = Ok s →
  G z_var BGL_form_factor w s =
    (and_then (fplus z_var BGL_form_factor w s).1
       (vmul #(BGL_prefactor (m_D / m_B))), s) ∧
  fplus z_var BGL_form_factor w s =
    (and_then (form_factor_call z_var BGL_form_factor w s).1
       (λ F, vpow F #2), s).
Proof.
  intros HmB HmD Hnew.
  destruct (new_BToDBGL _ _ _ _ _ _ _ Hnew) as (Hcls & [_ _ _ _ _ Hr] & _).
  destruct (mass_ratio m_B m_D HmB HmD) as [Heq Hge].
  rewrite Heq in Hr. split.
  - rewrite G_BToDBGL by done. unfold BToDBGL_G.
    apply binop_run_l; [|apply frame_fplus].
    eapply (evals_scalar (Real 0)); [repeat evals_step|].
    apply prefactor_num_Real. lra.
  - unfold fplus. apply binop_run_r; [apply frame_form_factor_call | done].
Qed.

Lemma BToDBGL_G_is_prefactor_times_fplus_witness :
  0 < 5.279 ∧ 0 <= 1.870 ∧
  new BToDBGL
    (BToDBGL_init G_F_GeV #5.279 #1.870 #0.0411 (opt_float None)
       (opt_coefficients (Some example_coefficients))) = Ok example_BGL ∧
  G z_var_spec BGL_form_factor_spec #1.04 example_BGL =
    (and_then (fplus z_var_spec BGL_form_factor_spec #1.04 example_BGL).1
       (vmul #(BGL_prefactor (1.870 / 5.279))), example_BGL) ∧
  fplus z_var_spec BGL_form_factor_spec #1.04 example_BGL =
    (and_then
       (form_factor_call z_var_spec BGL_form_factor_spec #1.04 example_BGL).1
       (λ F, vpow F #2), example_BGL).
Proof.
  split; [lra|]. split; [lra|]. split; [apply example_BGL_new|].
  apply (BToDBGL_G_is_prefactor_times_fplus z_var_spec BGL_form_factor_spec
           G_F_GeV 5.279 1.870 0.0411 None
           (opt_coefficients (Some example_coefficients)) #1.04 example_BGL);
    [lra | lra | apply example_BGL_new].
Defined.

Lemma example_CLN_fields :
  cls example_CLN = BToDCLN ∧
  base_model G_F_GeV example_CLN 5.279 1.870 0.0411 1.0066 ∧
  dict example_CLN !! "G_1" = Some #1.074 ∧
  dict example_CLN !! "rho2" = Some #1.15.
Proof. apply (new_BToDCLN _ _ _ _ None None None), example_CLN_new. Qed.

(** C4: on every model whose attributes [BToD.__init__] has set from float
    arguments, and for every recoil value w >= 1 at which the squared form
    factor [G(w)] of the model's class returns a number g, [dGamma_dw(w)]
    returns G_F^2 m_D^3 / (48 pi^3) (m_B + m_D)^2 (w^2 - 1)^(3/2) eta_EW^2
    V_cb^2 g. *)
Theorem dGamma_dw_closed_form
    (z_var : value → result value)
    (BGL_form_factor :
       value → (value → result value) → (value → result value) → value →
       result value)
    (PDG_G_F m_B m_D V_cb eta_EW w g : R) (s : object) :
  base_model PDG_G_F s m_B m_D V_cb eta_EW →
  1 <= w →
  returns (G z_var BGL_form_factor #w) s #g →
  returns (dGamma_dw z_var BGL_form_factor #w) s
    #(differential_rate PDG_G_F m_B m_D eta_EW V_cb w g).
Proof.
  intros Hs Hw HG. apply dGamma_dw_float; [done | nra | done].
Qed.

Lemma dGamma_dw_closed_form_witness :
  base_model G_F_GeV example_CLN 5.279 1.870 0.0411 1.0066 ∧
  1 <= 1 ∧
  returns (G z_var_spec BGL_form_factor_spec #1) example_CLN
    #(CLN_form_factor 1.074 1.15 0) ∧
  returns (dGamma_dw z_var_spec BGL_form_factor_spec #1) example_CLN
    #(differential_rate G_F_GeV 5.279 1.870 1.0066 0.0411 1
        (CLN_form_factor 1.074 1.15 0)).
Proof.
  destruct example_CLN_fields as (Hcls & Hbase & HG1 & Hrho).
  assert (returns (G z_var_spec BGL_form_factor_spec #1) example_CLN
            #(CLN_form_factor 1.074 1.15 0)) as HG
    by (apply CLN_G_float; [done | done | done | apply z_var_spec_1]).
  split; [done|]. split; [lra|]. split; [done|].
  apply (dGamma_dw_closed_form z_var_spec BGL_form_factor_spec G_F_GeV
           5.279 1.870 0.0411 1.0066 1 (CLN_form_factor 1.074 1.15 0)
           example_CLN Hbase); [lra | exact HG].
Defined.

(** C5: on a CLN model built with parameters G1 and rho2, [G(w)] returns
    [G1 (1 - 8 rho2 z + (51 rho2 - 10) z^2 - (252 rho2 - 84) z^3)]^2 for
    the number z that [z_var(w)] returns; on a model built with the
    default parameters, where [z_var] sends w = 1 to z = 0, [G(1)] returns
    1.074^2. *)
Theorem BToDCLN_G_closed_form
    (z_var : value → result value)
    (BGL_form_factor :
       value → (value → result value) → (value → result value) → value →
       result value)
    (PDG_G_F m_B m_D V_cb : R) (eta_EW : option R) :
  (∀ (G1 rho2 z : R) (w : value) (s : object),
     new BToDCLN
       (BToDCLN_init PDG_G_F #m_B #m_D #V_cb (opt_float eta_EW)
          (Some #G1) (Some #rho2)) = Ok s →
     z_var w = Ok #z →
     returns (G z_var BGL_form_factor w) s #(CLN_form_factor G1 rho2 z)) ∧
  (∀ s : object,
     new BToDCLN
       (BToDCLN_init PDG_G_F #m_B #m_D #V_cb (opt_float eta_EW) None None)
       = Ok s →
     z_var #1 = Ok #0 →
     returns (G z_var BGL_form_factor #1) s #(1.074 ^ 2)).
Proof.
  split.
  - intros G1 rho2 z w s Hnew Hz.
    destruct (new_BToDCLN _ _ _ _ _ _ _ _ Hnew) as (Hcls & _ & HG1 & Hrho).
    by apply CLN_G_float.
  - intros s Hnew Hz.
    destruct (new_BToDCLN _ _ _ _ _ _ _ _ Hnew) as (Hcls & _ & HG1 & Hrho).
    replace (1.074 ^ 2) with (CLN_form_factor 1.074 1.15 0)
      by (unfold CLN_form_factor; ring).
    by apply CLN_G_float.
Qed.

Lemma example_CLN_new_explicit :
  new BToDCLN
    (BToDCLN_init G_F_GeV #5.279 #1.870 #0.0411 (opt_float None)
       (Some #1.074) (Some #1.15))
  = Ok example_CLN.
Proof.
  eapply new_BToD_example; [|done].
  apply (BToDCLN_init_run G_F_GeV (Real 5.279) (Real 1.870)).
Qed.

Lemma BToDCLN_G_closed_form_witness :
  (new BToDCLN
     (BToDCLN_init G_F_GeV #5.279 #1.870 #0.0411 (opt_float None)
        (Some #1.074) (Some #1.15)) = Ok example_CLN ∧
   z_var_spec #1 = Ok #0 ∧
   returns (G z_var_spec BGL_form_factor_spec #1) example_CLN
     #(CLN_form_factor 1.074 1.15 0)) ∧
  (new BToDCLN
     (BToDCLN_init G_F_GeV #5.279 #1.870 #0.0411 (opt_float None) None None)
     = Ok example_CLN ∧
   z_var_spec #1 = Ok #0 ∧
   returns (G z_var_spec BGL_form_factor_spec #1) example_CLN #(1.074 ^ 2)).
Proof.
  destruct (BToDCLN_G_closed_form z_var_spec BGL_form_factor_spec G_F_GeV
              5.279 1.870 0.0411 None) as [Hgen Hdef].
  split.
  - split; [apply example_CLN_new_explicit|]. split; [apply z_var_spec_1|].
    apply (Hgen 1.074 1.15 0 #1 example_CLN);
      [apply example_CLN_new_explicit | apply z_var_spec_1].
  - split; [apply example_CLN_new|]. split; [apply z_var_spec_1|].
    apply (Hdef example_CLN); [apply example_CLN_new | apply z_var_spec_1].
Defined.

Lemma BGL_num_Real (r z : R) (a : list R) :
  0 <= r → -1 < z < 1 →
  BGL_num (Real r) (Real <$> a) (Real z) = Real (BGL_form_factor_R r a z).
Proof.
  intros Hr Hz. unfold BGL_num, series_sum_num.
  rewrite prefactor_num_Real by lra. rewrite series_num_Real.
  rewrite phi_num_Real by lra.
  pose proof (outer_function_pos r z Hr Hz). by nsimpl.
Qed.

Lemma BGL_G_float z_var s (r z : R) (a : list R) w :
  cls s = BToDBGL →
  dict s !! "r" = Some #r → 0 <= r →
  dict s !! "expansion_coefficients" = Some (VList (Real <$> a)) →
  z_var w = Ok #z → -1 < z < 1 →
  returns (G z_var BGL_form_factor_spec w) s #(BGL_form_factor_R r a z).
Proof.
  intros Hcls Hr Hr0 Ha Hzv Hz. unfold returns.
  rewrite G_BToDBGL by done.
  eapply (evals_scalar (Real 0));
    [by eapply (BToDBGL_G_evals _ _ (λ _, Real z))|].
  by apply BGL_num_Real.
Qed.

Lemma new_BToDBGL_coefficients PDG_G_F (m_B m_D V_cb : R) eta_EW a s :
  0 < m_B → 0 <= m_D →
  new BToDBGL
    (BToDBGL_init PDG_G_F #m_B #m_D #V_cb (opt_float eta_EW)
       (opt_coefficients a)) = Ok s →
  cls s = BToDBGL ∧
  base_model PDG_G_F s m_B m_D V_cb (default 1.0066 eta_EW) ∧
  dict s !! "r" = Some #(m_D / m_B) ∧ 0 <= m_D / m_B ∧
  dict s !! "expansion_coefficients" = Some (VList (Real <$> default [] a)).
Proof.
  intros HmB HmD Hnew.
  destruct (new_BToDBGL _ _ _ _ _ _ _ Hnew) as (Hcls & Hbase & Ha).
  destruct (mass_ratio m_B m_D HmB HmD) as [Heq Hge].
  pose proof (base_r _ _ _ _ _ _ Hbase) as Hr. rewrite Heq in Hr.
  repeat (split; [done|]). rewrite Ha. by destruct a.
Qed.

(** C6: on a BGL model with masses m_B > 0 and m_D >= 0 built with no
    coefficients (the default, or an empty list), [G(w)] returns 0 for
    every w that [z_var] sends into the open unit interval, the series
    being evaluated as the specification describes it. *)
Theorem BToDBGL_G_empty_is_zero
    (z_var : value → result value)
    (PDG_G_F m_B m_D V_cb : R) (eta_EW : option R) (a : option (list R))
    (w : value) (z : R) (s : object) :
  0 < m_B → 0 <= m_D →
  default [] a = [] →
  new BToDBGL
    (BToDBGL_init PDG_G_F #m_B #m_D #V_cb (opt_float eta_EW)
       (opt_coefficients a)) = Ok s →
  z_var w = Ok #z → -1 < z < 1 →
  returns (G z_var BGL_form_factor_spec w) s #0.
Proof.
  intros HmB HmD Hempty Hnew Hzv Hz.
  destruct (new_BToDBGL_coefficients _ _ _ _ _ _ _ HmB HmD Hnew)
    as (Hcls & _ & Hr & Hr0 & Ha).
  rewrite Hempty in Ha.
  replace 0 with (BGL_form_factor_R (m_D / m_B) [] z)
    by (unfold BGL_form_factor_R, Rdiv; simpl; ring).
  by apply BGL_G_float.
Qed.

Lemma BToDBGL_G_empty_is_zero_witness :
  0 < 5.279 ∧ 0 <= 1.870 ∧ default [] (@None (list R)) = [] ∧
  new BToDBGL
    (BToDBGL_init G_F_GeV #5.279 #1.870 #0.0411 (opt_float None)
       (opt_coefficients None)) = Ok example_BGL_empty ∧
  z_var_spec #1 = Ok #0 ∧ -1 < 0 < 1 ∧
  returns (G z_var_spec BGL_form_factor_spec #1) example_BGL_empty #0.
Proof.
  split; [lra|]. split; [lra|]. split; [reflexivity|].
  split; [apply example_BGL_empty_new|]. split; [apply z_var_spec_1|].
  split; [lra|].
  apply (BToDBGL_G_empty_is_zero z_var_spec G_F_GeV 5.279 1.870 0.0411
           None None #1 0 example_BGL_empty);
    [lra | lra | reflexivity | apply example_BGL_empty_new
    | apply z_var_spec_1 | lra].
Defined.

Lemma differential_rate_at_1 (G_F m_B m_D eta_EW V_cb g : R) :
  differential_rate G_F m_B m_D eta_EW V_cb 1 g = 0.
Proof.
  unfold differential_rate.
  replace (1 ^ 2 - 1) with 0 by ring. rewrite sqrt_0. ring.
Qed.

Lemma dGamma_dw_at_1 z_var BGL_form_factor PDG_G_F s
    (m_B m_D V_cb eta_EW g : R) :
  base_model PDG_G_F s m_B m_D V_cb eta_EW →
  returns (G z_var BGL_form_factor #1) s #g →
  returns (dGamma_dw z_var BGL_form_factor #1) s #0.
Proof.
  intros Hs HG.
  rewrite <- (differential_rate_at_1 PDG_G_F m_B m_D eta_EW V_cb g).
  apply dGamma_dw_float; [done | lra | done].
Qed.

Lemma new_BToDCLN_floats PDG_G_F (m_B m_D V_cb : R) eta_EW G1 rho2 s :
  new BToDCLN
    (BToDCLN_init PDG_G_F #m_B #m_D #V_cb (opt_float eta_EW)
       (opt_float G1) (opt_float rho2)) = Ok s →
  cls s = BToDCLN ∧
  base_model PDG_G_F s m_B m_D V_cb (default 1.0066 eta_EW) ∧
  dict s !! "G_1" = Some #(default 1.074 G1) ∧
  dict s !! "rho2" = Some #(default 1.15 rho2).
Proof.
  intros Hnew.
  destruct (new_BToDCLN _ _ _ _ _ _ _ _ Hnew) as (Hcls & Hbase & HG1 & Hrho).
  repeat (split; [done|]). rewrite HG1, Hrho. by destruct G1, rho2.
Qed.

(** C7: at w = 1 [dGamma_dw] returns 0, whatever number the squared form
    factor returns there: on any initialised model whose [G(1)] returns a
    number; on every CLN model, for any parameters G1 and rho2; and on
    every BGL model with masses m_B > 0, m_D >= 0 and any list of real
    coefficients, where [z_var] sends w = 1 into the open unit interval
    and the series is evaluated as the specification describes it. *)
Theorem dGamma_dw_at_1_is_zero
    (z_var : value → result value)
    (BGL_form_factor :
       value → (value → result value) → (value → result value) → value →
       result value)
    (PDG_G_F m_B m_D V_cb : R) (eta_EW : option R) (z : R) :
  (∀ (eta g : R) (s : object),
     base_model PDG_G_F s m_B m_D V_cb eta →
     returns (G z_var BGL_form_factor #1) s #g →
     returns (dGamma_dw z_var BGL_form_factor #1) s #0) ∧
  (∀ (G1 rho2 : option R) (s : object),
     new BToDCLN
       (BToDCLN_init PDG_G_F #m_B #m_D #V_cb (opt_float eta_EW)
          (opt_float G1) (opt_float rho2)) = Ok s →
     z_var #1 = Ok #z →
     returns (dGamma_dw z_var BGL_form_factor #1) s #0) ∧
  (∀ (a : option (list R)) (s : object),
     0 < m_B → 0 <= m_D →
     new BToDBGL
       (BToDBGL_init PDG_G_F #m_B #m_D #V_cb (opt_float eta_EW)
          (opt_coefficients a)) = Ok s →
     z_var #1 = Ok #z → -1 < z < 1 →
     returns (dGamma_dw z_var BGL_form_factor_spec #1) s #0).
Proof.
  split; [|split].
  - intros eta g s Hs HG. by eapply dGamma_dw_at_1.
  - intros G1 rho2 s Hnew Hz.
    destruct (new_BToDCLN_floats _ _ _ _ _ _ _ _ Hnew)
      as (Hcls & Hbase & HG1 & Hrho).
    eapply dGamma_dw_at_1; [done|]. by apply CLN_G_float.
  - intros a s HmB HmD Hnew Hzv Hz.
    destruct (new_BToDBGL_coefficients _ _ _ _ _ _ _ HmB HmD Hnew)
      as (Hcls & Hbase & Hr & Hr0 & Ha).
    eapply dGamma_dw_at_1; [done|]. by apply BGL_G_float.
Qed.

Lemma dGamma_dw_at_1_is_zero_witness :
  (base_model G_F_GeV example_CLN 5.279 1.870 0.0411 1.0066 ∧
   returns (G z_var_spec BGL_form_factor_spec #1) example_CLN
     #(CLN_form_factor 1.074 1.15 0) ∧
   returns (dGamma_dw z_var_spec BGL_form_factor_spec #1) example_CLN #0) ∧
  (new BToDCLN
     (BToDCLN_init G_F_GeV #5.279 #1.870 #0.0411 (opt_float None)
        (opt_float None) (opt_float None)) = Ok example_CLN ∧
   z_var_spec #1 = Ok #0 ∧
   returns (dGamma_dw z_var_spec BGL_form_factor_spec #1) example_CLN #0) ∧
  (0 < 5.279 ∧ 0 <= 1.870 ∧
   new BToDBGL
     (BToDBGL_init G_F_GeV #5.279 #1.870 #0.0411 (opt_float None)
        (opt_coefficients (Some example_coefficients))) = Ok example_BGL ∧
   z_var_spec #1 = Ok #0 ∧ -1 < 0 < 1 ∧
   returns (dGamma_dw z_var_spec BGL_form_factor_spec #1) example_BGL #0).
Proof.
  destruct (dGamma_dw_at_1_is_zero z_var_spec BGL_form_factor_spec G_F_GeV
              5.279 1.870 0.0411 None 0) as (Hany & HCLN & HBGL).
  destruct example_CLN_fields as (Hcls & Hbase & HG1 & Hrho).
  assert (returns (G z_var_spec BGL_form_factor_spec #1) example_CLN
            #(CLN_form_factor 1.074 1.15 0)) as HG
    by (apply CLN_G_float; [done | done | done | apply z_var_spec_1]).
  split; [|split].
  - split; [done|]. split; [done|].
    exact (Hany 1.0066 (CLN_form_factor 1.074 1.15 0) example_CLN Hbase HG).
  - split; [apply example_CLN_new|]. split; [apply z_var_spec_1|].
    exact (HCLN None None example_CLN example_CLN_new z_var_spec_1).
  - split; [lra|]. split; [lra|]. split; [apply example_BGL_new|].
    split; [apply z_var_spec_1|]. split; [lra|].
    apply (HBGL (Some example_coefficients) example_BGL);
      [lra | lra | apply example_BGL_new | apply z_var_spec_1 | lra].
Defined.

(** ** Batch calls *)

Lemma evals_elementwise (m : value → E) g s :
  (∀ i, evals i true g (m (arg i)) s) → elementwise m s.
Proof.
  intros Hm.
  assert (∀ w, returns (m (VFloat w)) s (VFloat (g w))) as Hscalar.
  { intros w. by eapply (evals_scalar w); [apply (Hm (Scalar w))|]. }
  split.
  - intros w. by exists (g w).
  - intros ws. pose proof (evals_array ws g _ s (Hm (Array ws))) as Harray.
    unfold returns in *. simpl in Harray. rewrite Harray. do 3 f_equal.
    apply list_fmap_ext. intros _ w _. rewrite Hscalar. done.
Qed.

Lemma dGamma_dw_elementwise z_var BGL_form_factor PDG_G_F s
    (m_B m_D V_cb eta_EW : R) gG :
  base_model PDG_G_F s m_B m_D V_cb eta_EW →
  (∀ i, evals i true gG (G z_var BGL_form_factor (arg i)) s) →
  elementwise (dGamma_dw z_var BGL_form_factor) s.
Proof.
  intros [HmB HmD HV Heta HGF _] HG.
  eapply evals_elementwise. intros i.
  eapply (dGamma_dw_evals _ _ _ (λ x, x)); try done. apply den_arg.
Qed.

Lemma z_var_ufunc_den (zf : num → num) i :
  ∃ z, ufunc zf (arg i) = Ok z ∧ den i true (λ w, zf w) z.
Proof. apply den_ufunc, den_arg. Qed.




(** ** Purity and defaults *)

(** C9: none of the operations [G], [dGamma_dw], [phi_plus] and [fplus]
    assigns to an attribute: run with any argument against any object of
    any of the three classes, each hands the object back as it received
    it, whether it returns or raises, so every attribute set at
    construction keeps its value. *)
Theorem methods_leave_object_unchanged
    (z_var : value → result value)
    (BGL_form_factor :
       value → (value → result value) → (value → result value) → value →
       result value)
    (w : value) (s : object) :
  (G z_var BGL_form_factor w s).2 = s ∧
  (dGamma_dw z_var BGL_form_factor w s).2 = s ∧
  (phi_plus w s).2 = s ∧
  (fplus z_var BGL_form_factor w s).2 = s ∧
  ∀ name,
    dict (G z_var BGL_form_factor w s).2 !! name = dict s !! name ∧
    dict (dGamma_dw z_var BGL_form_factor w s).2 !! name = dict s !! name ∧
    dict (phi_plus w s).2 !! name = dict s !! name ∧
    dict (fplus z_var BGL_form_factor w s).2 !! name = dict s !! name.
Proof.
  pose proof (frame_G z_var BGL_form_factor w s) as HG.
  pose proof (frame_dGamma_dw z_var BGL_form_factor w s) as Hrate.
  pose proof (frame_phi_plus w s) as Hphi.
  pose proof (frame_fplus z_var BGL_form_factor w s) as Hf.
  repeat (split; [done|]). intros name. by rewrite HG, Hrate, Hphi, Hf.
Qed.

Lemma BToDCLN_init_stores PDG_G_F m_B m_D V_cb eta_EW g1 rho2 s0 s :
  BToDCLN_init PDG_G_F m_B m_D V_cb eta_EW g1 rho2 s0 = (Ok (), s) →
  dict s !! "G_1" =
    Some (if is_None (default VNone g1) then #1.074 else default VNone g1) ∧
  dict s !! "rho2" =
    Some (if is_None (default VNone rho2) then #1.15
          else default VNone rho2).
Proof.
  unfold BToDCLN_init, bind, setattr. cbv zeta.
  destruct (BToD_init _ _ _ _ _ s0) as [[[]|e] s1]; [|done].
  intros [= <-]. split; by simplify_map_eq.
Qed.

Lemma BToDBGL_init_stores PDG_G_F m_B m_D V_cb eta_EW a s0 s :
  BToDBGL_init PDG_G_F m_B m_D V_cb eta_EW a s0 = (Ok (), s) →
  dict s !! "expansion_coefficients" =
    Some (if is_None (default VNone a) then VList [] else default VNone a).
Proof.
  unfold BToDBGL_init, bind, setattr. cbv zeta.
  destruct (BToD_init _ _ _ _ _ s0) as [[[]|e] s1]; [|done].
  intros [= <-]. by simplify_map_eq.
Qed.

Lemma new_inv C init s :
  new C init = Ok s → init (Object C ∅) = (Ok (), s).
Proof.
  unfold new. destruct (init _) as [[[]|e] s']; [|done]. by intros [= ->].
Qed.

Lemma not_None_default (v d : value) :
  d ≠ VNone → (if is_None v then d else v) ≠ VNone.
Proof. by destruct v. Qed.

(** C10: passing [None] for [cln_g1], [cln_rho2] or
    [bgl_fplus_coefficients] builds the same object as leaving the
    argument out; the constructors then store 1.074, 1.15 and the empty
    list; and whatever is passed, the stored [G_1], [rho2] and
    [expansion_coefficients] are never [None]. *)
Theorem None_argument_is_default
    (PDG_G_F : R) (m_B m_D V_cb : value) (eta_EW : option value) :
  (∀ rho2,
     BToDCLN_init PDG_G_F m_B m_D V_cb eta_EW (Some VNone) rho2 =
     BToDCLN_init PDG_G_F m_B m_D V_cb eta_EW None rho2) ∧
  (∀ g1,
     BToDCLN_init PDG_G_F m_B m_D V_cb eta_EW g1 (Some VNone) =
     BToDCLN_init PDG_G_F m_B m_D V_cb eta_EW g1 None) ∧
  BToDBGL_init PDG_G_F m_B m_D V_cb eta_EW (Some VNone) =
    BToDBGL_init PDG_G_F m_B m_D V_cb eta_EW None ∧
  (∀ g1 rho2 s,
     new BToDCLN (BToDCLN_init PDG_G_F m_B m_D V_cb eta_EW g1 rho2) = Ok s →
     ∃ G_1 rho2',
       dict s !! "G_1" = Some G_1 ∧ G_1 ≠ VNone ∧
       (default VNone g1 = VNone → G_1 = #1.074) ∧
       dict s !! "rho2" = Some rho2' ∧ rho2' ≠ VNone ∧
       (default VNone rho2 = VNone → rho2' = #1.15)) ∧
  (∀ a s,
     new BToDBGL (BToDBGL_init PDG_G_F m_B m_D V_cb eta_EW a) = Ok s →
     ∃ coefficients,
       dict s !! "expansion_coefficients" = Some coefficients ∧
       coefficients ≠ VNone ∧
       (default VNone a = VNone → coefficients = VList [])).
Proof.
  repeat (split; [done|]). split.
  - intros g1 rho2 s Hnew.
    destruct (BToDCLN_init_stores _ _ _ _ _ _ _ _ _ (new_inv _ _ _ Hnew))
      as [HG1 Hrho].
    eexists _, _. split; [exact HG1|].
    split; [by apply not_None_default|]. split; [by intros ->|].
    split; [exact Hrho|].
    split; [by apply not_None_default|]. by intros ->.
  - intros a s Hnew.
    pose proof (BToDBGL_init_stores _ _ _ _ _ _ _ _ (new_inv _ _ _ Hnew))
      as Ha.
    eexists. split; [exact Ha|].
    split; [by apply not_None_default|]. by intros ->.
Qed.

Lemma None_argument_is_default_witness :
  (new BToDCLN
     (BToDCLN_init G_F_GeV #5.279 #1.870 #0.0411 None (Some VNone)
        (Some VNone)) = Ok example_CLN ∧
   ∃ G_1 rho2',
     dict example_CLN !! "G_1" = Some G_1 ∧ G_1 ≠ VNone ∧
     (default VNone (Some VNone) = VNone → G_1 = #1.074) ∧
     dict example_CLN !! "rho2" = Some rho2' ∧ rho2' ≠ VNone ∧
     (default VNone (Some VNone) = VNone → rho2' = #1.15)) ∧
  (new BToDBGL
     (BToDBGL_init G_F_GeV #5.279 #1.870 #0.0411 None (Some VNone))
     = Ok example_BGL_empty ∧
   ∃ coefficients,
     dict example_BGL_empty !! "expansion_coefficients" = Some coefficients ∧
     coefficients ≠ VNone ∧
     (default VNone (Some VNone) = VNone → coefficients = VList [])).
Proof.
  destruct (None_argument_is_default G_F_GeV #5.279 #1.870 #0.0411 None)
    as (_ & _ & _ & HCLN & HBGL).
  split.
  - split; [apply example_CLN_new|].
    exact (HCLN (Some VNone) (Some VNone) example_CLN example_CLN_new).
  - split; [apply example_BGL_empty_new|].
    exact (HBGL (Some VNone) example_BGL_empty example_BGL_empty_new).
Defined.

(** * Further properties of the code *)

(** ** Raising *)

Lemma raises_bind_l {A B} (m : M A) (k : A → M B) s e :
  raises m s e → raises (bind m k) s e.
Proof. unfold raises, bind. by intros ->. Qed.

Lemma raises_bind_r {A B} (m : M A) (k : A → M B) s a e :
  returns m s a → raises (k a) s e → raises (bind m k) s e.
Proof. unfold raises. intros Hm. by rewrite (bind_run _ _ _ _ Hm). Qed.

Lemma raises_binop_l op (a b : E) s e :
  raises a s e → raises (binop op a b) s e.
Proof. apply raises_bind_l. Qed.

Lemma raises_binop_r op (a b : E) s x e :
  returns a s x → raises b s e → raises (binop op a b) s e.
Proof.
  intros Ha Hb. unfold binop. eapply raises_bind_r; [done|].
  by apply raises_bind_l.
Qed.

Lemma raises_binop op (a b : E) s x y e :
  returns a s x → returns b s y → op x y = Raise e →
  raises (binop op a b) s e.
Proof.
  intros Ha Hb Hop. unfold raises. rewrite (binop_run _ _ _ _ _ _ Ha Hb).
  by rewrite Hop.
Qed.

(** A float, or an array with an entry, against [None] is a
    [TypeError]. *)
Lemma den_arith_None f i b g v :
  (∀ ws, i = Array ws → ws ≠ []) →
  den i b g v → arith f v VNone = Raise TypeError.
Proof.
  destruct i as [w|ws]; simpl; [by intros _ ->|]. intros Hws.
  destruct b; [|by intros (c & -> & _)]. intros ->.
  destruct ws as [|w ws]; [by destruct (Hws [])|done].
Qed.

Lemma raises_binop_None f (a b : E) i bv g s :
  (∀ ws, i = Array ws → ws ≠ []) →
  evals i bv g a s → returns b s VNone →
  raises (binop (arith f) a b) s TypeError.
Proof.
  intros Hi (v & Ha & Hv) Hb. eapply raises_binop; [done | done|].
  by eapply den_arith_None.
Qed.

Lemma base_dGamma_dw_raises z_var BGL_form_factor PDG_G_F s
    (m_B m_D V_cb eta_EW : R) i :
  (∀ ws, i = Array ws → ws ≠ []) →
  cls s = BToD → base_model PDG_G_F s m_B m_D V_cb eta_EW →
  raises (dGamma_dw z_var BGL_form_factor (arg i)) s TypeError.
Proof.
  intros Hi Hcls [HmB HmD HV Heta HGF _]. unfold dGamma_dw, np_pi.
  eapply raises_bind_r; [by apply returns_getattr|].
  eapply raises_bind_r; [by apply returns_getattr|]. cbv beta.
  eapply (raises_binop_None nmul _ _ i); [done | repeat evals_step|].
  unfold returns. by rewrite G_BToD.
Qed.

(** On an array without entries the kinematic factor is an array without
    entries, and its product with the [None] of [BToD.G] is one as well. *)
Lemma base_dGamma_dw_empty z_var BGL_form_factor PDG_G_F s
    (m_B m_D V_cb eta_EW : R) :
  cls s = BToD → base_model PDG_G_F s m_B m_D V_cb eta_EW →
  returns (dGamma_dw z_var BGL_form_factor (VArray [])) s (VArray []).
Proof.
  intros Hcls [HmB HmD HV Heta HGF _]. unfold dGamma_dw, np_pi.
  eapply returns_bind; [by apply returns_getattr|].
  eapply returns_bind; [by apply returns_getattr|]. cbv beta.
  eapply (returns_binop _ _ _ _ (VArray []) VNone).
  - change (VArray []) with (arg (Array [])) at 1.
    eapply (evals_array [] _ _ s).
    eapply evals_flag; [|repeat evals_step]. done.
  - unfold returns. by rewrite G_BToD.
  - done.
Qed.

(** X1: a model of the base class [BToD] built from float arguments, with
    a mass [m_B] that can be divided by, has no usable rate: [dGamma_dw]
    raises [TypeError] for every float and for every array that has an
    entry, because the inherited body multiplies its kinematic factor by
    the [None] that [BToD.G] returns.  Only an array without entries gets
    through: there is no entry to multiply, and the result is an array
    without entries. *)
Theorem base_dGamma_dw_raises_TypeError
    (z_var : value → result value)
    (BGL_form_factor :
       value → (value → result value) → (value → result value) → value →
       result value)
    (PDG_G_F m_B m_D V_cb : R) (eta_EW : option R) (s : object) :
  m_B ≠ 0 →
  new BToD (BToD_init PDG_G_F #m_B #m_D #V_cb (opt_float eta_EW)) = Ok s →
  (∀ w : num, raises (dGamma_dw z_var BGL_form_factor (VFloat w)) s TypeError)
  ∧ (∀ (w : num) (ws : list num),
       raises (dGamma_dw z_var BGL_form_factor (VArray (w :: ws))) s
         TypeError)
  ∧ returns (dGamma_dw z_var BGL_form_factor (VArray [])) s (VArray []).
Proof.
  intros _ Hnew. destruct (new_BToD _ _ _ _ _ _ Hnew) as [Hcls Hbase].
  split; [|split].
  - intros w.
    by eapply (base_dGamma_dw_raises _ _ _ _ _ _ _ _ (Scalar w)).
  - intros w ws.
    eapply (base_dGamma_dw_raises _ _ _ _ _ _ _ _ (Array (w :: ws)));
      [|done..].
    by intros ? [= <-].
  - by eapply base_dGamma_dw_empty.
Qed.

Lemma example_BToD_new :
  ∃ s, new BToD (BToD_init G_F_GeV #5.279 #1.870 #0.0411 (opt_float None))
       = Ok s.
Proof.
  eexists. eapply new_BToD_example; [|done].
  apply (BToD_init_run G_F_GeV (Real 5.279) (Real 1.870)).
Qed.

Lemma base_dGamma_dw_raises_TypeError_witness :
  ∃ s,
    new BToD (BToD_init G_F_GeV #5.279 #1.870 #0.0411 (opt_float None))
      = Ok s ∧
    (∀ w : num,
       raises (dGamma_dw z_var_spec BGL_form_factor_spec (VFloat w)) s
         TypeError) ∧
    (∀ (w : num) (ws : list num),
       raises (dGamma_dw z_var_spec BGL_form_factor_spec (VArray (w :: ws))) s
         TypeError) ∧
    returns (dGamma_dw z_var_spec BGL_form_factor_spec (VArray [])) s
      (VArray []).
Proof.
  destruct example_BToD_new as [s Hs]. exists s. split; [exact Hs|].
  refine (base_dGamma_dw_raises_TypeError z_var_spec BGL_form_factor_spec
            G_F_GeV 5.279 1.870 0.0411 None s _ Hs).
  lra.
Defined.

(** X2: [dGamma_dw] rejects an argument that is [None] or a Python list
    with [TypeError] on every initialised model, of whatever class: the
    power [w ** 2] fails before [self.G] is called, so nothing that [G],
    [z_var] or [BGL_form_factor] would do is reached. *)
Theorem dGamma_dw_rejects_None_and_lists
    (z_var : value → result value)
    (BGL_form_factor :
       value → (value → result value) → (value → result value) → value →
       result value)
    (PDG_G_F m_B m_D V_cb eta_EW : R) (s : object) :
  base_model PDG_G_F s m_B m_D V_cb eta_EW →
  raises (dGamma_dw z_var BGL_form_factor VNone) s TypeError ∧
  ∀ xs, raises (dGamma_dw z_var BGL_form_factor (VList xs)) s TypeError.
Proof.
  intros [HmB HmD HV Heta HGF _].
  assert (∀ w, vpow w #2 = Raise TypeError →
               raises (dGamma_dw z_var BGL_form_factor w) s TypeError)
    as Hw.
  { intros w Hpow. unfold dGamma_dw, np_pi.
    eapply raises_bind_r; [by apply returns_getattr|].
    eapply raises_bind_r; [by apply returns_getattr|]. cbv beta.
    do 3 apply raises_binop_l. eapply raises_binop_r.
    - eapply (evals_scalar (Real 0)); [repeat evals_step | done].
    - do 2 apply raises_binop_l.
      eapply raises_binop; [apply returns_const | apply returns_const|].
      exact Hpow. }
  split; [by apply Hw|]. intros xs. by apply Hw.
Qed.

Lemma dGamma_dw_rejects_None_and_lists_witness :
  base_model G_F_GeV example_CLN 5.279 1.870 0.0411 1.0066 ∧
  raises (dGamma_dw z_var_spec BGL_form_factor_spec VNone) example_CLN
    TypeError ∧
  ∀ xs,
    raises (dGamma_dw z_var_spec BGL_form_factor_spec (VList xs)) example_CLN
      TypeError.
Proof.
  destruct example_CLN_fields as (_ & Hbase & _).
  split; [exact Hbase|].
  exact (dGamma_dw_rejects_None_and_lists z_var_spec BGL_form_factor_spec
           G_F_GeV 5.279 1.870 0.0411 1.0066 example_CLN Hbase).
Defined.

Lemma rate_num_below_threshold (G_F m_B m_D eta_EW V_cb w : R) (g : num) :
  -1 < w < 1 →
  rate_num (Real G_F) (Real m_B) (Real m_D) (Real eta_EW) (Real V_cb)
    (Real w) g = NaN.
Proof.
  intros Hw. pose proof PI_RGT_0.
  assert (PI ^ 3 ≠ 0) by (apply pow_nonzero; lra).
  unfold rate_num. nsimpl. rewrite ndiv_Real by done. nsimpl.
  rewrite float_pow_three_halves_neg; [done|]. simpl. nra.
Qed.

(** X3: between the thresholds, for -1 < w < 1, the factor
    (w^2 - 1)^(3/2) is a fractional power of a negative number, and
    [dGamma_dw(w)] returns no real number (nan in NumPy, a complex number
    in plain Python), whatever float the squared form factor returns. *)
Theorem dGamma_dw_below_threshold_is_nan
    (z_var : value → result value)
    (BGL_form_factor :
       value → (value → result value) → (value → result value) → value →
       result value)
    (PDG_G_F m_B m_D V_cb eta_EW w : R) (g : num) (s : object) :
  base_model PDG_G_F s m_B m_D V_cb eta_EW →
  -1 < w < 1 →
  returns (G z_var BGL_form_factor #w) s (VFloat g) →
  returns (dGamma_dw z_var BGL_form_factor #w) s (VFloat NaN).
Proof.
  intros [HmB HmD HV Heta HGF _] Hw HG.
  eapply (evals_scalar (Real w)).
  - eapply (dGamma_dw_evals _ _ _ (λ x, x) (λ _, g)); try done.
    by exists (VFloat g).
  - cbv beta. by apply rate_num_below_threshold.
Qed.

Lemma z_var_spec_0 :
  z_var_spec #0 = Ok #((sqrt (0 + 1) - sqrt 2) / (sqrt (0 + 1) + sqrt 2)).
Proof. unfold z_var_spec. simpl. by rewrite z_num_Real by lra. Qed.

Lemma dGamma_dw_below_threshold_is_nan_witness :
  base_model G_F_GeV example_CLN 5.279 1.870 0.0411 1.0066 ∧
  -1 < 0 < 1 ∧
  returns (G z_var_spec BGL_form_factor_spec #0) example_CLN
    #(CLN_form_factor 1.074 1.15
        ((sqrt (0 + 1) - sqrt 2) / (sqrt (0 + 1) + sqrt 2))) ∧
  returns (dGamma_dw z_var_spec BGL_form_factor_spec #0) example_CLN
    (VFloat NaN).
Proof.
  destruct example_CLN_fields as (Hcls & Hbase & HG1 & Hrho).
  assert (returns (G z_var_spec BGL_form_factor_spec #0) example_CLN
            #(CLN_form_factor 1.074 1.15
                ((sqrt (0 + 1) - sqrt 2) / (sqrt (0 + 1) + sqrt 2)))) as HG
    by (apply CLN_G_float; [done | done | done | apply z_var_spec_0]).
  split; [exact Hbase|]. split; [lra|]. split; [exact HG|].
  apply (dGamma_dw_below_threshold_is_nan z_var_spec BGL_form_factor_spec
           G_F_GeV 5.279 1.870 0.0411 1.0066 0
           (Real (CLN_form_factor 1.074 1.15
                    ((sqrt (0 + 1) - sqrt 2) / (sqrt (0 + 1) + sqrt 2))))
           example_CLN Hbase);
    [lra | exact HG].
Defined.

(** ** Signs and bounds *)

Lemma differential_rate_nonneg (G_F m_B m_D eta_EW V_cb w g : R) :
  0 <= m_D → 0 <= g → 0 <= differential_rate G_F m_B m_D eta_EW V_cb w g.
Proof.
  intros HmD Hg. unfold differential_rate, Rdiv. pose proof PI_RGT_0.
  assert (0 <= sqrt (w ^ 2 - 1) ^ 3) by (apply pow_le, sqrt_pos).
  assert (0 <= / (48 * PI ^ 3)).
  { apply Rlt_le, Rinv_0_lt_compat.
    assert (0 < PI ^ 3) by (by apply pow_lt). lra. }
  assert (0 <= m_D ^ 3) by (by apply pow_le).
  pose proof (pow2_ge_0 G_F). pose proof (pow2_ge_0 (m_B + m_D)).
  pose proof (pow2_ge_0 eta_EW). pose proof (pow2_ge_0 V_cb).
  do 5 (apply Rmult_le_pos; [|done]).
  apply Rmult_le_pos; [|done]. by apply Rmult_le_pos.
Qed.

(** X4: on a model with daughter mass m_D >= 0, for a recoil w >= 1 at
    which the squared form factor returns a number g >= 0, [dGamma_dw(w)]
    returns a number that is not negative. *)
Theorem dGamma_dw_is_nonnegative
    (z_var : value → result value)
    (BGL_form_factor :
       value → (value → result value) → (value → result value) → value →
       result value)
    (PDG_G_F m_B m_D V_cb eta_EW w g : R) (s : object) :
  base_model PDG_G_F s m_B m_D V_cb eta_EW →
  0 <= m_D → 1 <= w → 0 <= g →
  returns (G z_var BGL_form_factor #w) s #g →
  ∃ rate,
    returns (dGamma_dw z_var BGL_form_factor #w) s #rate ∧ 0 <= rate.
Proof.
  intros Hs HmD Hw Hg HG.
  exists (differential_rate PDG_G_F m_B m_D eta_EW V_cb w g).
  split; [apply dGamma_dw_float; [done | nra | done]|].
  by apply differential_rate_nonneg.
Qed.

Lemma CLN_form_factor_nonneg (G1 rho2 z : R) : 0 <= CLN_form_factor G1 rho2 z.
Proof. unfold CLN_form_factor. apply pow2_ge_0. Qed.

Lemma z_var_spec_float (w : R) :
  -1 <= w →
  z_var_spec #w = Ok #((sqrt (w + 1) - sqrt 2) / (sqrt (w + 1) + sqrt 2)).
Proof. intros Hw. unfold z_var_spec. simpl. by rewrite z_num_Real. Qed.

Lemma dGamma_dw_is_nonnegative_witness :
  let z := (sqrt (1.04 + 1) - sqrt 2) / (sqrt (1.04 + 1) + sqrt 2) in
  base_model G_F_GeV example_CLN 5.279 1.870 0.0411 1.0066 ∧
  0 <= 1.870 ∧ 1 <= 1.04 ∧ 0 <= CLN_form_factor 1.074 1.15 z ∧
  returns (G z_var_spec BGL_form_factor_spec #1.04) example_CLN
    #(CLN_form_factor 1.074 1.15 z) ∧
  ∃ rate,
    returns (dGamma_dw z_var_spec BGL_form_factor_spec #1.04) example_CLN
      #rate
    ∧ 0 <= rate.
Proof.
  intros z.
  destruct example_CLN_fields as (Hcls & Hbase & HG1 & Hrho).
  assert (returns (G z_var_spec BGL_form_factor_spec #1.04) example_CLN
            #(CLN_form_factor 1.074 1.15 z)) as HG
    by (apply CLN_G_float; [done | done | done | apply z_var_spec_float; lra]).
  split; [exact Hbase|]. split; [lra|]. split; [lra|].
  split; [apply CLN_form_factor_nonneg|]. split; [exact HG|].
  apply (dGamma_dw_is_nonnegative z_var_spec BGL_form_factor_spec G_F_GeV
           5.279 1.870 0.0411 1.0066 1.04 (CLN_form_factor 1.074 1.15 z)
           example_CLN Hbase);
    [lra | lra | apply CLN_form_factor_nonneg | exact HG].
Defined.

(** X5: on a CLN model built with float parameters, wherever [z_var(w)]
    returns a number z, [G(w)] returns a number that is not negative, and
    at z = 0 (zero recoil) that number is G_1^2 whatever rho2 is: rho2
    shapes the form factor without changing its normalisation. *)
Theorem BToDCLN_G_nonnegative_and_normalised
    (z_var : value → result value)
    (BGL_form_factor :
       value → (value → result value) → (value → result value) → value →
       result value)
    (PDG_G_F m_B m_D V_cb : R) (eta_EW G1 rho2 : option R)
    (w : value) (z : R) (s : object) :
  new BToDCLN
    (BToDCLN_init PDG_G_F #m_B #m_D #V_cb (opt_float eta_EW)
       (opt_float G1) (opt_float rho2)) = Ok s →
  z_var w = Ok #z →
  ∃ g,
    returns (G z_var BGL_form_factor w) s #g ∧ 0 <= g ∧
    (z = 0 → g = default 1.074 G1 ^ 2).
Proof.
  intros Hnew Hz.
  destruct (new_BToDCLN_floats _ _ _ _ _ _ _ _ Hnew)
    as (Hcls & _ & HG1 & Hrho).
  exists (CLN_form_factor (default 1.074 G1) (default 1.15 rho2) z).
  split; [by apply CLN_G_float|].
  split; [apply CLN_form_factor_nonneg|].
  intros ->. unfold CLN_form_factor. ring.
Qed.

Lemma BToDCLN_G_nonnegative_and_normalised_witness :
  new BToDCLN
    (BToDCLN_init G_F_GeV #5.279 #1.870 #0.0411 (opt_float None)
       (opt_float None) (opt_float None)) = Ok example_CLN ∧
  z_var_spec #1 = Ok #0 ∧
  ∃ g,
    returns (G z_var_spec BGL_form_factor_spec #1) example_CLN #g ∧ 0 <= g ∧
    (0 = 0 → g = default 1.074 None ^ 2).
Proof.
  split; [apply example_CLN_new|]. split; [apply z_var_spec_1|].
  exact (BToDCLN_G_nonnegative_and_normalised z_var_spec
           BGL_form_factor_spec G_F_GeV 5.279 1.870 0.0411 None None None
           #1 0 example_CLN example_CLN_new z_var_spec_1).
Defined.

Lemma BGL_prefactor_nonneg (r : R) : 0 <= r → 0 <= BGL_prefactor r.
Proof.
  intros Hr. unfold BGL_prefactor.
  assert (0 < (1 + r) ^ 2) by (apply pow_lt; lra).
  apply Rmult_le_pos; [lra|]. by apply Rlt_le, Rinv_0_lt_compat.
Qed.

(** X6: on a BGL model with masses m_B > 0 and m_D >= 0, whenever
    [BGL_form_factor] returns a number F, [fplus(w)] returns F^2 and
    [G(w)] returns 4 r / (1 + r)^2 times it, and neither is negative. *)
Theorem BToDBGL_G_and_fplus_nonnegative
    (z_var : value → result value)
    (BGL_form_factor :
       value → (value → result value) → (value → result value) → value →
       result value)
    (PDG_G_F m_B m_D V_cb : R) (eta_EW : option R) (a : option value)
    (w : value) (F : R) (s : object) :
  0 < m_B → 0 <= m_D →
  new BToDBGL
    (BToDBGL_init PDG_G_F #m_B #m_D #V_cb (opt_float eta_EW) a) = Ok s →
  returns (form_factor_call z_var BGL_form_factor w) s #F →
  ∃ g f,
    returns (G z_var BGL_form_factor w) s #g ∧
    returns (fplus z_var BGL_form_factor w) s #f ∧
    f = F ^ 2 ∧ g = BGL_prefactor (m_D / m_B) * f ∧ 0 <= f ∧ 0 <= g.
Proof.
  intros HmB HmD Hnew HF.
  destruct (new_BToDBGL _ _ _ _ _ _ _ Hnew) as (Hcls & [_ _ _ _ _ Hr] & _).
  destruct (mass_ratio m_B m_D HmB HmD) as [Heq Hge]. rewrite Heq in Hr.
  assert (returns (fplus z_var BGL_form_factor w) s #(F ^ 2)) as Hf.
  { unfold fplus. eapply returns_binop; [done | apply returns_const|].
    unfold vpow. cbn [arith npow]. by rewrite float_pow_pos. }
  exists (BGL_prefactor (m_D / m_B) * F ^ 2), (F ^ 2).
  split; [|split; [done|split; [done|split; [done|split]]]].
  - unfold returns. rewrite G_BToDBGL by done. unfold BToDBGL_G.
    eapply returns_binop;
      [eapply (evals_scalar (Real 0));
         [repeat evals_step | apply prefactor_num_Real; lra]
      | exact Hf | done].
  - apply pow2_ge_0.
  - apply Rmult_le_pos; [by apply BGL_prefactor_nonneg | apply pow2_ge_0].
Qed.

Lemma form_factor_call_float z_var s (r z : R) (a : list R) w :
  dict s !! "r" = Some #r → 0 <= r →
  dict s !! "expansion_coefficients" = Some (VList (Real <$> a)) →
  z_var w = Ok #z → -1 < z < 1 →
  returns (form_factor_call z_var BGL_form_factor_spec w) s
    #(series_R z 0 a 0 / (1 * outer_function r z)).
Proof.
  intros Hr Hr0 Ha Hzv Hz.
  eapply (evals_scalar (Real 0));
    [by eapply (form_factor_call_evals _ _ (λ _, Real z))|].
  cbv beta. unfold series_sum_num.
  rewrite series_num_Real, phi_num_Real by lra.
  pose proof (outer_function_pos r z Hr0 Hz). by nsimpl.
Qed.

Lemma BToDBGL_G_and_fplus_nonnegative_witness :
  0 < 5.279 ∧ 0 <= 1.870 ∧
  new BToDBGL
    (BToDBGL_init G_F_GeV #5.279 #1.870 #0.0411 (opt_float None)
       (opt_coefficients (Some example_coefficients))) = Ok example_BGL ∧
  returns (form_factor_call z_var_spec BGL_form_factor_spec #1) example_BGL
    #(series_R 0 0 example_coefficients 0
      / (1 * outer_function (1.870 / 5.279) 0)) ∧
  ∃ g f,
    returns (G z_var_spec BGL_form_factor_spec #1) example_BGL #g ∧
    returns (fplus z_var_spec BGL_form_factor_spec #1) example_BGL #f ∧
    f = (series_R 0 0 example_coefficients 0
         / (1 * outer_function (1.870 / 5.279) 0)) ^ 2 ∧
    g = BGL_prefactor (1.870 / 5.279) * f ∧ 0 <= f ∧ 0 <= g.
Proof.
  assert (0 < 5.279) as HmB by lra. assert (0 <= 1.870) as HmD by lra.
  destruct (new_BToDBGL_coefficients G_F_GeV 5.279 1.870 0.0411 None
              (Some example_coefficients) example_BGL HmB HmD
              example_BGL_new) as (Hcls & _ & Hr & Hr0 & Ha).
  assert (returns
            (form_factor_call z_var_spec BGL_form_factor_spec #1) example_BGL
            #(series_R 0 0 example_coefficients 0
              / (1 * outer_function (1.870 / 5.279) 0))) as HF
    by (apply form_factor_call_float;
        [done | done | done | apply z_var_spec_1 | lra]).
  split; [exact HmB|]. split; [exact HmD|].
  split; [apply example_BGL_new|]. split; [exact HF|].
  exact (BToDBGL_G_and_fplus_nonnegative z_var_spec BGL_form_factor_spec
           G_F_GeV 5.279 1.870 0.0411 None
           (opt_coefficients (Some example_coefficients)) #1 _ example_BGL
           HmB HmD example_BGL_new HF).
Defined.

(** ** The outer function at and beyond the ends of its domain *)

Lemma float_pow_half_neg (x : R) : x < 0 → float_pow x (1 / 2) = NaN.
Proof.
  intros Hx. unfold float_pow.
  destruct (Req_dec_T (1 / 2) 0) as [|_]; [lra|].
  destruct (Req_dec_T x 0) as [|_]; [lra|].
  destruct (Req_dec_T _ _) as [Hw|_].
  { exfalso. apply (half_not_whole 0).
    replace (IZR 0 + / 2) with (1 / 2) by lra. done. }
  destruct (Rlt_dec 0 x); [lra | done].
Qed.

Lemma nmul_NaN_r (x : num) : nmul x NaN = NaN.
Proof. by destruct x. Qed.

Lemma phi_num_beyond_1 (r : num) (z : R) : 1 < z → phi_num r (Real z) = NaN.
Proof.
  intros Hz. unfold phi_num. nsimpl.
  rewrite float_pow_half_neg by lra. done.
Qed.

Lemma phi_num_negative_ratio (r : R) (z : num) :
  r < 0 → phi_num (Real r) z = NaN.
Proof.
  intros Hr. unfold phi_num, nsqrt.
  destruct (Rlt_dec r 0); [|lra].
  replace (nmul (nmul (Real 2) NaN) (nadd (Real 1) z)) with NaN by done.
  replace (nadd (nmul (nadd (Real 1) (Real r)) (nsub (Real 1) z)) NaN)
    with NaN by (by destruct (nmul _ _)).
  replace (npow NaN (Real (-5))) with NaN.
  - apply nmul_NaN_r.
  - simpl. destruct (Req_dec_T (-5) 0); [lra | done].
Qed.

(** X7: on a BGL model with masses m_B > 0 and m_D >= 0, [phi_plus(z)]
    returns a strictly positive number for every z in the open unit
    interval, so a division by the outer function is defined there; at
    z = -1 it returns 0, and beyond z = 1 it returns no real number, the
    square root of 1 - z being taken of a negative number. *)
Theorem phi_plus_on_and_off_the_unit_interval
    (PDG_G_F m_B m_D V_cb : R) (eta_EW : option R) (a : option value)
    (s : object) :
  0 < m_B → 0 <= m_D →
  new BToDBGL
    (BToDBGL_init PDG_G_F #m_B #m_D #V_cb (opt_float eta_EW) a) = Ok s →
  (∀ z, -1 < z < 1 → ∃ p, returns (phi_plus #z) s #p ∧ 0 < p) ∧
  returns (phi_plus #(-1)) s #0 ∧
  (∀ z, 1 < z → returns (phi_plus #z) s (VFloat NaN)).
Proof.
  intros HmB HmD Hnew.
  destruct (new_BToDBGL _ _ _ _ _ _ _ Hnew) as (_ & [_ _ _ _ _ Hr] & _).
  destruct (mass_ratio m_B m_D HmB HmD) as [Heq Hge]. rewrite Heq in Hr.
  split; [|split].
  - intros z Hz. exists (outer_function (m_D / m_B) z).
    split; [apply phi_plus_float; [done | done | lra]|].
    by apply outer_function_pos.
  - replace 0 with (outer_function (m_D / m_B) (-1))
      by (unfold outer_function; ring).
    apply phi_plus_float; [done | done | lra].
  - intros z Hz.
    eapply (evals_scalar (Real z));
      [by apply (phi_plus_evals _ false (λ _, Real z))|].
    by apply phi_num_beyond_1.
Qed.

Lemma phi_plus_on_and_off_the_unit_interval_witness :
  0 < 5.279 ∧ 0 <= 1.870 ∧
  new BToDBGL
    (BToDBGL_init G_F_GeV #5.279 #1.870 #0.0411 (opt_float None)
       (opt_coefficients (Some example_coefficients))) = Ok example_BGL ∧
  (∀ z, -1 < z < 1 → ∃ p, returns (phi_plus #z) example_BGL #p ∧ 0 < p) ∧
  returns (phi_plus #(-1)) example_BGL #0 ∧
  (∀ z, 1 < z → returns (phi_plus #z) example_BGL (VFloat NaN)).
Proof.
  assert (0 < 5.279) as HmB by lra. assert (0 <= 1.870) as HmD by lra.
  split; [exact HmB|]. split; [exact HmD|].
  split; [apply example_BGL_new|].
  exact (phi_plus_on_and_off_the_unit_interval G_F_GeV 5.279 1.870 0.0411
           None (opt_coefficients (Some example_coefficients)) example_BGL
           HmB HmD example_BGL_new).
Defined.

(** X8: a negative mass ratio, which the constructors accept without a
    check (m_D < 0 < m_B), makes [np.sqrt(r)] nan, and [phi_plus] then
    returns no real number at any float z. *)
Theorem phi_plus_with_negative_mass_ratio
    (PDG_G_F m_B m_D V_cb : R) (eta_EW : option R) (a : option value)
    (z : num) (s : object) :
  0 < m_B → m_D < 0 →
  new BToDBGL
    (BToDBGL_init PDG_G_F #m_B #m_D #V_cb (opt_float eta_EW) a) = Ok s →
  returns (phi_plus (VFloat z)) s (VFloat NaN).
Proof.
  intros HmB HmD Hnew.
  destruct (new_BToDBGL _ _ _ _ _ _ _ Hnew) as (_ & [_ _ _ _ _ Hr] & _).
  rewrite ndiv_Real in Hr by lra.
  eapply (evals_scalar z);
    [by apply (phi_plus_evals _ false (λ _, z))|].
  apply phi_num_negative_ratio.
  unfold Rdiv. assert (0 < / m_B) by (by apply Rinv_0_lt_compat). nra.
Qed.

Lemma phi_plus_with_negative_mass_ratio_witness :
  ∃ s,
    0 < 5.279 ∧ -1.870 < 0 ∧
    new BToDBGL
      (BToDBGL_init G_F_GeV #5.279 #(-1.870) #0.0411 (opt_float None) None)
      = Ok s ∧
    returns (phi_plus #0) s (VFloat NaN).
Proof.
  assert (0 < 5.279) as HmB by lra. assert (-1.870 < 0) as HmD by lra.
  pose proof (new_BToD_example BToDBGL
                (BToDBGL_init G_F_GeV #5.279 #(-1.870) #0.0411
                   (opt_float None) None) _ _
                (BToDBGL_init_run G_F_GeV (Real 5.279) (Real (-1.870))
                   #0.0411 None None (Object BToDBGL ∅)) eq_refl) as Hnew.
  eexists. split; [exact HmB|]. split; [exact HmD|].
  split; [exact Hnew|].
  exact (phi_plus_with_negative_mass_ratio G_F_GeV 5.279 (-1.870) 0.0411
           None None (Real 0) _ HmB HmD Hnew).
Defined.

(** ** Vectorised form factors *)



(** ** Constructors *)

Lemma arith_None_l f v :
  v ≠ VArray [] → arith f VNone v = Raise TypeError.
Proof. destruct v as [| |[|x xs]|]; done. Qed.

Lemma arith_None_r f v :
  v ≠ VArray [] → arith f v VNone = Raise TypeError.
Proof. destruct v as [| |[|x xs]|]; done. Qed.

Lemma BToD_init_raises PDG_G_F (m_B m_D V_cb : value) eta_EW s0 :
  (m_B = VNone ∧ m_D ≠ VArray []) ∨ (m_D = VNone ∧ m_B ≠ VArray []) →
  (BToD_init PDG_G_F m_B m_D V_cb eta_EW s0).1 = Raise TypeError.
Proof.
  intros Hmass. unfold BToD_init. cbv zeta.
  unfold bind at 1. unfold setattr at 1. cbv beta iota.
  unfold bind at 1. unfold setattr at 1. cbv beta iota.
  unfold bind at 1. unfold setattr at 1. cbv beta iota.
  unfold bind at 1. unfold setattr at 1. cbv beta iota.
  unfold bind at 1. unfold setattr at 1. cbv beta iota.
  match goal with |- context [binop vdiv ?a ?b] =>
    assert (∀ s, dict s !! "m_B" = Some m_B → dict s !! "m_D" = Some m_D →
                 raises (binop vdiv a b) s TypeError) as Hr end.
  { intros s HB HD.
    eapply raises_binop; [by apply returns_getattr..|].
    unfold vdiv. destruct Hmass as [[-> ?] | [-> ?]];
      [by apply arith_None_r | by apply arith_None_l]. }
  unfold bind. rewrite Hr; [done|..]; cbn [dict]; by simplify_map_eq.
Qed.

Lemma new_raises C (init : M ()) e :
  (init (Object C ∅)).1 = Raise e → new C init = Raise e.
Proof. unfold new. destruct (init _) as [[[]|e'] s]; simpl; by intros [= ->]. Qed.

Lemma bind_fst_raises {A B} (m : M A) (k : A → M B) s e :
  (m s).1 = Raise e → (bind m k s).1 = Raise e.
Proof. unfold bind. destruct (m s) as [[a|e'] s']; simpl; by intros [= ->]. Qed.

(** X11: the constructors do not check their arguments, but a mass that is
    [None] does not get through: the mass ratio [self.m_D / self.m_B] is
    computed in [BToD.__init__], and each of the three constructors raises
    [TypeError] instead of returning a model, whatever the other arguments
    are, as long as the other mass is not an array without entries (for
    which the quotient is an array without entries again). *)
Theorem constructors_reject_None_mass
    (PDG_G_F : R) (m_B m_D V_cb : value)
    (eta_EW cln_g1 cln_rho2 bgl_fplus_coefficients : option value) :
  (m_B = VNone ∧ m_D ≠ VArray []) ∨ (m_D = VNone ∧ m_B ≠ VArray []) →
  new BToD (BToD_init PDG_G_F m_B m_D V_cb eta_EW) = Raise TypeError ∧
  new BToDCLN (BToDCLN_init PDG_G_F m_B m_D V_cb eta_EW cln_g1 cln_rho2)
    = Raise TypeError ∧
  new BToDBGL
    (BToDBGL_init PDG_G_F m_B m_D V_cb eta_EW bgl_fplus_coefficients)
    = Raise TypeError.
Proof.
  intros Hmass. split; [|split]; apply new_raises.
  - by apply BToD_init_raises.
  - unfold BToDCLN_init. cbv zeta.
    by apply bind_fst_raises, BToD_init_raises.
  - unfold BToDBGL_init. cbv zeta.
    by apply bind_fst_raises, BToD_init_raises.
Qed.

Lemma constructors_reject_None_mass_witness :
  ((VNone = VNone ∧ #1.870 ≠ VArray []) ∨
   (#1.870 = VNone ∧ VNone ≠ VArray [])) ∧
  new BToD (BToD_init G_F_GeV VNone #1.870 #0.0411 None) = Raise TypeError ∧
  new BToDCLN (BToDCLN_init G_F_GeV VNone #1.870 #0.0411 None None None)
    = Raise TypeError ∧
  new BToDBGL (BToDBGL_init G_F_GeV VNone #1.870 #0.0411 None None)
    = Raise TypeError.
Proof.
  assert ((VNone = VNone ∧ #1.870 ≠ VArray []) ∨
          (#1.870 = VNone ∧ VNone ≠ VArray [])) as H
    by (left; split; [reflexivity | discriminate]).
  split; [exact H|].
  exact (constructors_reject_None_mass G_F_GeV VNone #1.870 #0.0411
           None None None None H).
Defined.

Lemma raises_binop_r_evals op (a b : E) i bv g s e :
  evals i bv g a s → raises b s e → raises (binop op a b) s e.
Proof. intros (v & Ha & _) Hb. by eapply raises_binop_r. Qed.

(** X12: a [V_cb] that is [None] is stored without complaint: with float
    masses, of which m_B can be divided by, the CLN constructor returns a
    model, and only [dGamma_dw] fails on it, with [TypeError] for every
    float and every array, when it squares [self.V_cb]; the squared form
    factor is not reached. *)
Theorem None_V_cb_fails_only_in_dGamma_dw
    (z_var : value → result value)
    (BGL_form_factor :
       value → (value → result value) → (value → result value) → value →
       result value)
    (PDG_G_F m_B m_D : R) (eta_EW : option R)
    (cln_g1 cln_rho2 : option value) :
  m_B ≠ 0 →
  ∃ s,
    new BToDCLN
      (BToDCLN_init PDG_G_F #m_B #m_D VNone (opt_float eta_EW)
         cln_g1 cln_rho2) = Ok s ∧
    dict s !! "V_cb" = Some VNone ∧
    (∀ w : num,
       raises (dGamma_dw z_var BGL_form_factor (VFloat w)) s TypeError) ∧
    (∀ ws : list num,
       raises (dGamma_dw z_var BGL_form_factor (VArray ws)) s TypeError).
Proof.
  intros _. eexists. split.
  { eapply new_BToD_example; [|done].
    apply (BToDCLN_init_run PDG_G_F (Real m_B) (Real m_D)). }
  set (s := Object _ _).
  assert (dict s !! "m_B" = Some #m_B) as HmB
    by (unfold s, base_dict; by simplify_map_eq).
  assert (dict s !! "m_D" = Some #m_D) as HmD
    by (unfold s, base_dict; by simplify_map_eq).
  assert (dict s !! "G_F" = Some #PDG_G_F) as HGF
    by (unfold s, base_dict; by simplify_map_eq).
  assert (dict s !! "eta_EW" = Some #(default 1.0066 eta_EW)) as Heta
    by (unfold s, base_dict; destruct eta_EW; by simplify_map_eq).
  assert (dict s !! "V_cb" = Some VNone) as HV
    by (unfold s, base_dict; by simplify_map_eq).
  split; [done|].
  assert (∀ i, raises (dGamma_dw z_var BGL_form_factor (arg i)) s TypeError)
    as Hraises.
  { intros i. unfold dGamma_dw, np_pi.
    eapply raises_bind_r; [by apply returns_getattr|].
    eapply raises_bind_r; [by apply returns_getattr|]. cbv beta.
    apply raises_binop_l.
    eapply (raises_binop_r_evals _ _ _ i); [repeat evals_step|].
    eapply raises_binop; [by apply returns_getattr | apply returns_const|].
    done. }
  split; [intros w; apply (Hraises (Scalar w))|].
  intros ws. apply (Hraises (Array ws)).
Qed.

Lemma None_V_cb_fails_only_in_dGamma_dw_witness :
  5.279 ≠ 0 ∧
  ∃ s,
    new BToDCLN
      (BToDCLN_init G_F_GeV #5.279 #1.870 VNone (opt_float None) None None)
      = Ok s ∧
    dict s !! "V_cb" = Some VNone ∧
    (∀ w : num,
       raises (dGamma_dw z_var_spec BGL_form_factor_spec (VFloat w)) s
         TypeError) ∧
    (∀ ws : list num,
       raises (dGamma_dw z_var_spec BGL_form_factor_spec (VArray ws)) s
         TypeError).
Proof.
  assert (5.279 ≠ 0) as H by lra.
  split; [exact H|].
  exact (None_V_cb_fails_only_in_dGamma_dw z_var_spec BGL_form_factor_spec
           G_F_GeV 5.279 1.870 None None None H).
Defined.

Lemma dom_base_dict PDG_G_F mB mD V eta r :
  dom (base_dict PDG_G_F mB mD V eta r ∅) =
  ({["m_B"; "m_D"; "V_cb"; "eta_EW"; "G_F"; "r"]} : gset string).
Proof. unfold base_dict. rewrite !dom_insert_L, dom_empty_L. set_solver. Qed.

(** X13: built from float arguments with m_B not zero, a CLN model carries
    exactly eight attributes and a BGL model exactly seven: the four
    arguments of the base constructor as passed (eta_EW being 1.0066 when
    left out), [G_F] from the constants, the derived mass ratio
    r = m_D / m_B, and the parameters of the variant with their defaults;
    a CLN model has no [expansion_coefficients] and a BGL model no [G_1]
    or [rho2]. *)
Theorem constructors_set_exactly_their_attributes
    (PDG_G_F m_B m_D V_cb : R) (eta_EW G1 rho2 : option R)
    (a : option (list R)) :
  m_B ≠ 0 →
  (∃ s,
     new BToDCLN
       (BToDCLN_init PDG_G_F #m_B #m_D #V_cb (opt_float eta_EW)
          (opt_float G1) (opt_float rho2)) = Ok s ∧
     cls s = BToDCLN ∧
     dom (dict s) =
       ({["m_B"; "m_D"; "V_cb"; "eta_EW"; "G_F"; "r"; "G_1"; "rho2"]}
        : gset string) ∧
     dict s !! "m_B" = Some #m_B ∧ dict s !! "m_D" = Some #m_D ∧
     dict s !! "V_cb" = Some #V_cb ∧
     dict s !! "eta_EW" = Some #(default 1.0066 eta_EW) ∧
     dict s !! "G_F" = Some #PDG_G_F ∧
     dict s !! "r" = Some #(m_D / m_B) ∧
     dict s !! "G_1" = Some #(default 1.074 G1) ∧
     dict s !! "rho2" = Some #(default 1.15 rho2)) ∧
  (∃ s,
     new BToDBGL
       (BToDBGL_init PDG_G_F #m_B #m_D #V_cb (opt_float eta_EW)
          (opt_coefficients a)) = Ok s ∧
     cls s = BToDBGL ∧
     dom (dict s) =
       ({["m_B"; "m_D"; "V_cb"; "eta_EW"; "G_F"; "r";
          "expansion_coefficients"]} : gset string) ∧
     dict s !! "m_B" = Some #m_B ∧ dict s !! "m_D" = Some #m_D ∧
     dict s !! "V_cb" = Some #V_cb ∧
     dict s !! "eta_EW" = Some #(default 1.0066 eta_EW) ∧
     dict s !! "G_F" = Some #PDG_G_F ∧
     dict s !! "r" = Some #(m_D / m_B) ∧
     dict s !! "expansion_coefficients" =
       Some (VList (Real <$> default [] a))).
Proof.
  intros HmB. split.
  - eexists. split.
    { eapply new_BToD_example; [|done].
      apply (BToDCLN_init_run PDG_G_F (Real m_B) (Real m_D)). }
    pose proof (new_BToDCLN_floats PDG_G_F m_B m_D V_cb eta_EW G1 rho2 _
                  (new_BToD_example _ _ _ _
                     (BToDCLN_init_run PDG_G_F (Real m_B) (Real m_D) #V_cb
                        (opt_float eta_EW) (opt_float G1) (opt_float rho2)
                        (Object BToDCLN ∅)) eq_refl))
      as (Hcls & [? ? ? ? ? Hr] & HG1 & Hrho).
    split; [done|]. split.
    { cbn [dict]. rewrite !dom_insert_L, dom_base_dict. set_solver. }
    repeat (split; [first [done | by rewrite <- (ndiv_Real m_D m_B HmB)]|]).
    done.
  - eexists. split.
    { eapply new_BToD_example; [|done].
      apply (BToDBGL_init_run PDG_G_F (Real m_B) (Real m_D)). }
    pose proof (new_BToDBGL PDG_G_F m_B m_D V_cb eta_EW
                  (opt_coefficients a) _
                  (new_BToD_example _ _ _ _
                     (BToDBGL_init_run PDG_G_F (Real m_B) (Real m_D) #V_cb
                        (opt_float eta_EW) (opt_coefficients a)
                        (Object BToDBGL ∅)) eq_refl))
      as (Hcls & [? ? ? ? ? Hr] & Ha).
    split; [done|]. split.
    { cbn [dict]. rewrite !dom_insert_L, dom_base_dict. set_solver. }
    repeat (split; [first [done | by rewrite <- (ndiv_Real m_D m_B HmB)]|]).
    rewrite Ha. by destruct a.
Qed.

Lemma constructors_set_exactly_their_attributes_witness :
  5.279 ≠ 0 ∧
  (∃ s,
     new BToDCLN
       (BToDCLN_init G_F_GeV #5.279 #1.870 #0.0411 (opt_float None)
          (opt_float None) (opt_float None)) = Ok s ∧
     cls s = BToDCLN ∧
     dom (dict s) =
       ({["m_B"; "m_D"; "V_cb"; "eta_EW"; "G_F"; "r"; "G_1"; "rho2"]}
        : gset string) ∧
     dict s !! "m_B" = Some #5.279 ∧ dict s !! "m_D" = Some #1.870 ∧
     dict s !! "V_cb" = Some #0.0411 ∧
     dict s !! "eta_EW" = Some #(default 1.0066 None) ∧
     dict s !! "G_F" = Some #G_F_GeV ∧
     dict s !! "r" = Some #(1.870 / 5.279) ∧
     dict s !! "G_1" = Some #(default 1.074 None) ∧
     dict s !! "rho2" = Some #(default 1.15 None)).
Proof.
  assert (5.279 ≠ 0) as HmB by lra. split; [exact HmB|].
  exact (proj1 (constructors_set_exactly_their_attributes G_F_GeV 5.279
                  1.870 0.0411 None None None None HmB)).
Defined.

(** ** The sampled recoil range of the demonstration *)

Lemma w_max_float PDG_G_F s (m_B m_D V_cb eta_EW : R) :
  base_model PDG_G_F s m_B m_D V_cb eta_EW → 0 < m_B → 0 < m_D →
  returns w_max s #(recoil_max m_B m_D).
Proof.
  intros [HmB HmD _ _ _ _] HB HD. unfold w_max.
  eapply (evals_scalar (Real 0)); [repeat evals_step|].
  nsimpl. rewrite ndiv_Real by nra. done.
Qed.

Lemma recoil_max_ge_1 (m_B m_D : R) :
  0 < m_B → 0 < m_D →
  1 <= recoil_max m_B m_D ∧ (recoil_max m_B m_D = 1 ↔ m_B = m_D).
Proof.
  intros HB HD. unfold recoil_max.
  assert (0 < 2 * m_B * m_D) as Hden by nra.
  assert ((m_B ^ 2 + m_D ^ 2) / (2 * m_B * m_D) - 1
          = (m_B - m_D) ^ 2 / (2 * m_B * m_D)) as Hdiff
    by (field; lra).
  assert (0 <= (m_B - m_D) ^ 2 / (2 * m_B * m_D)) as Hge.
  { apply Rmult_le_pos; [apply pow2_ge_0|].
    by apply Rlt_le, Rinv_0_lt_compat. }
  split; [lra|]. split.
  - intros Heq. rewrite Heq in Hdiff.
    assert ((m_B - m_D) ^ 2 = 0) as Hsq.
    { apply (Rmult_eq_reg_r (/ (2 * m_B * m_D)));
        [|apply Rinv_neq_0_compat; lra].
      unfold Rdiv in Hdiff. lra. }
    nra.
  - intros ->. field. lra.
Qed.

(** X14: for a model whose masses are at least a factor two apart,
    0 < 2 m_D <= m_B, as those of the mesons the script passes are, the
    script's [w_max] is the number (m_B^2 + m_D^2) / (2 m_B m_D), and it
    lies above [w_min = 1]: the sampled range is not empty and starts at
    the zero-recoil point. *)
Theorem w_max_is_above_w_min
    (PDG_G_F m_B m_D V_cb eta_EW : R) (s : object) :
  base_model PDG_G_F s m_B m_D V_cb eta_EW → 0 < m_D → 2 * m_D <= m_B →
  returns w_max s #(recoil_max m_B m_D) ∧ 1 < recoil_max m_B m_D.
Proof.
  intros Hs HD Hsep. assert (0 < m_B) as HB by lra.
  split; [by eapply w_max_float|].
  destruct (recoil_max_ge_1 m_B m_D HB HD) as [Hge Heq].
  destruct Hge as [Hlt | Hone]; [done|].
  symmetry in Hone. apply Heq in Hone. lra.
Qed.

Lemma w_max_is_above_w_min_witness :
  base_model G_F_GeV example_CLN 5.279 1.870 0.0411 1.0066 ∧
  0 < 1.870 ∧ 2 * 1.870 <= 5.279 ∧
  returns w_max example_CLN #(recoil_max 5.279 1.870) ∧
  1 < recoil_max 5.279 1.870.
Proof.
  destruct example_CLN_fields as (_ & Hbase & _).
  assert (0 < 1.870) as HD by lra.
  assert (2 * 1.870 <= 5.279) as Hsep by lra.
  split; [exact Hbase|]. split; [exact HD|]. split; [exact Hsep|].
  exact (w_max_is_above_w_min G_F_GeV 5.279 1.870 0.0411 1.0066
           example_CLN Hbase HD Hsep).
Defined.

Lemma linspace_Real (a b : R) :
  linspace (Real a) (Real b) = Real <$> linspace_R a b.
Proof.
  unfold linspace, linspace_R. rewrite fmap_app. f_equal.
  rewrite <- list_fmap_compose. apply list_fmap_ext. intros _ i _.
  unfold compose. by nsimpl.
Qed.

Lemma length_linspace_R (a b : R) : length (linspace_R a b) = 50%nat.
Proof. unfold linspace_R. by rewrite length_app, length_fmap, length_seq. Qed.

Lemma linspace_R_bounds (a b : R) :
  a <= b → Forall (λ w, a <= w <= b) (linspace_R a b).
Proof.
  intros Hab. unfold linspace_R. apply Forall_app. split.
  - apply Forall_fmap, Forall_forall. intros i Hi.
    apply elem_of_seq in Hi. simpl.
    assert (0 <= INR i <= 48) as Hi'.
    { split; [apply pos_INR|].
      replace 48 with (INR 48) by (simpl; lra). apply le_INR. lia. }
    assert (0 <= (b - a) / 49) by lra. nra.
  - apply Forall_singleton. lra.
Qed.

Lemma head_linspace_R (a b : R) : ∃ w, head (linspace_R a b) = Some w ∧ w = a.
Proof. eexists. split; [done|]. simpl. lra. Qed.

Lemma last_linspace_R (a b : R) : last (linspace_R a b) = Some b.
Proof. unfold linspace_R. by rewrite last_snoc. Qed.

(** X15: for a model whose masses are at least a factor two apart,
    0 < 2 m_D <= m_B, [w_range] is an array of 50 numbers that starts at
    1, ends at [w_max] and stays between the two: every sample lies in the
    physical region w >= 1, where the kinematic factor of the rate has a
    real value. *)
Theorem w_range_samples_the_physical_region
    (PDG_G_F m_B m_D V_cb eta_EW : R) (s : object) :
  base_model PDG_G_F s m_B m_D V_cb eta_EW → 0 < m_D → 2 * m_D <= m_B →
  ∃ ws first,
    returns w_range s (VArray (Real <$> ws)) ∧
    length ws = 50%nat ∧
    head ws = Some first ∧ first = 1 ∧
    last ws = Some (recoil_max m_B m_D) ∧
    Forall (λ w, 1 <= w <= recoil_max m_B m_D) ws.
Proof.
  intros Hs HD Hsep. assert (0 < m_B) as HB by lra.
  destruct (recoil_max_ge_1 m_B m_D HB HD) as [Hge _].
  destruct (head_linspace_R 1 (recoil_max m_B m_D)) as (first & Hhead & Hfirst).
  exists (linspace_R 1 (recoil_max m_B m_D)), first.
  split; [|split; [apply length_linspace_R|split; [done|split; [done|split]]]].
  - unfold w_range. eapply returns_bind; [by eapply w_max_float|].
    apply returns_lift. unfold np_linspace, w_min. by rewrite linspace_Real.
  - apply last_linspace_R.
  - by apply linspace_R_bounds.
Qed.

Lemma w_range_samples_the_physical_region_witness :
  base_model G_F_GeV example_CLN 5.279 1.870 0.0411 1.0066 ∧
  0 < 1.870 ∧ 2 * 1.870 <= 5.279 ∧
  ∃ ws first,
    returns w_range example_CLN (VArray (Real <$> ws)) ∧
    length ws = 50%nat ∧
    head ws = Some first ∧ first = 1 ∧
    last ws = Some (recoil_max 5.279 1.870) ∧
    Forall (λ w, 1 <= w <= recoil_max 5.279 1.870) ws.
Proof.
  destruct example_CLN_fields as (_ & Hbase & _).
  assert (0 < 1.870) as HD by lra.
  assert (2 * 1.870 <= 5.279) as Hsep by lra.
  split; [exact Hbase|]. split; [exact HD|]. split; [exact Hsep|].
  exact (w_range_samples_the_physical_region G_F_GeV 5.279 1.870 0.0411
           1.0066 example_CLN Hbase HD Hsep).
Defined.

Lemma w_range_float PDG_G_F s (m_B m_D V_cb eta_EW : R) :
  base_model PDG_G_F s m_B m_D V_cb eta_EW → 0 < m_B → 0 < m_D →
  returns w_range s (VArray (Real <$> linspace_R 1 (recoil_max m_B m_D))).
Proof.
  intros Hs HB HD. unfold w_range.
  eapply returns_bind; [by eapply w_max_float|].
  apply returns_lift. unfold np_linspace, w_min. by rewrite linspace_Real.
Qed.

Lemma CLN_dGamma_dw_scalar (zf : num → num) BGL_form_factor PDG_G_F s
    (m_B m_D V_cb eta_EW G1 rho2 w z : R) :
  cls s = BToDCLN → base_model PDG_G_F s m_B m_D V_cb eta_EW →
  dict s !! "G_1" = Some #G1 → dict s !! "rho2" = Some #rho2 →
  1 <= w → zf (Real w) = Real z →
  scalar_of (dGamma_dw (ufunc zf) BGL_form_factor #w s) =
  Real (differential_rate PDG_G_F m_B m_D eta_EW V_cb w
          (CLN_form_factor G1 rho2 z)).
Proof.
  intros Hcls Hbase HG1 Hrho Hw Hz.
  assert (returns (dGamma_dw (ufunc zf) BGL_form_factor #w) s
            #(differential_rate PDG_G_F m_B m_D eta_EW V_cb w
                (CLN_form_factor G1 rho2 z))) as Hrate.
  { apply dGamma_dw_float; [done | nra|].
    apply CLN_G_float; [done | done | done|]. simpl. by rewrite Hz. }
  unfold returns in Hrate. by rewrite Hrate.
Qed.

Lemma CLN_dGamma_dw_array (zf : num → num) BGL_form_factor PDG_G_F s
    (m_B m_D V_cb eta_EW G1 rho2 : R) ws :
  cls s = BToDCLN → base_model PDG_G_F s m_B m_D V_cb eta_EW →
  dict s !! "G_1" = Some #G1 → dict s !! "rho2" = Some #rho2 →
  returns (dGamma_dw (ufunc zf) BGL_form_factor (VArray ws)) s
    (VArray ((λ w, scalar_of (dGamma_dw (ufunc zf) BGL_form_factor
                                (VFloat w) s)) <$> ws)).
Proof.
  intros Hcls Hbase HG1 Hrho.
  eapply (dGamma_dw_elementwise (ufunc zf) BGL_form_factor); [done|].
  intros i. destruct (z_var_ufunc_den zf i) as (z & Hz & Hden).
  unfold evals, returns. rewrite G_BToDCLN by done.
  by eapply BToDCLN_G_evals.
Qed.

(** X16: the curve the script plots for a CLN model with float parameters
    and masses at least a factor two apart, 0 < 2 m_D <= m_B,
    [dGamma_dw(w_range) * 1e15], is an array of 50 numbers, none of them
    nan and none negative, and the first, at w = 1, is 0; this needs no
    more of [z_var] than that it acts entry by entry and returns a number
    wherever w >= 1. *)
Theorem plotted_rate_is_real_and_nonnegative
    (zf : num → num)
    (BGL_form_factor :
       value → (value → result value) → (value → result value) → value →
       result value)
    (PDG_G_F m_B m_D V_cb : R) (eta_EW G1 rho2 : option R) (s : object) :
  0 < m_D → 2 * m_D <= m_B →
  (∀ w, 1 <= w → ∃ z, zf (Real w) = Real z) →
  new BToDCLN
    (BToDCLN_init PDG_G_F #m_B #m_D #V_cb (opt_float eta_EW)
       (opt_float G1) (opt_float rho2)) = Ok s →
  ∃ ws ys first,
    returns w_range s (VArray ws) ∧
    returns (plotted_rate (ufunc zf) BGL_form_factor (VArray ws)) s
      (VArray ys) ∧
    length ys = 50%nat ∧ Forall nonneg ys ∧
    head ys = Some first ∧ first = Real 0.
Proof.
  intros HD Hsep Hzf Hnew. assert (0 < m_B) as HB by lra.
  destruct (new_BToDCLN_floats _ _ _ _ _ _ _ _ Hnew)
    as (Hcls & Hbase & HG1 & Hrho).
  destruct (recoil_max_ge_1 m_B m_D HB HD) as [Hge _].
  set (wm := recoil_max m_B m_D) in *.
  set (rate := λ w : num,
         scalar_of (dGamma_dw (ufunc zf) BGL_form_factor (VFloat w) s)).
  set (scale := λ x : num, nmul x (Real 1e15)).
  assert (∀ w, 1 <= w → ∃ y,
            scale (rate (Real w)) = Real y ∧ 0 <= y ∧ (w = 1 → y = 0))
    as Hpoint.
  { intros w Hw. destruct (Hzf w Hw) as [z Hz]. unfold scale, rate.
    rewrite (CLN_dGamma_dw_scalar zf BGL_form_factor PDG_G_F s m_B m_D V_cb
               (default 1.0066 eta_EW) (default 1.074 G1)
               (default 1.15 rho2) w z) by done.
    eexists. split; [done|].
    pose proof (differential_rate_nonneg PDG_G_F m_B m_D
                  (default 1.0066 eta_EW) V_cb w
                  (CLN_form_factor (default 1.074 G1) (default 1.15 rho2) z)
                  (Rlt_le _ _ HD) (CLN_form_factor_nonneg _ _ _)).
    split; [nra|]. intros ->. rewrite differential_rate_at_1. lra. }
  destruct (head_linspace_R 1 wm) as (w0 & Hhead & Hw0).
  exists (Real <$> linspace_R 1 wm),
         (scale <$> (rate <$> (Real <$> linspace_R 1 wm))),
         (scale (rate (Real w0))).
  split; [by eapply w_range_float|]. split; [|split; [|split; [|split]]].
  - unfold plotted_rate.
    eapply returns_binop;
      [by eapply CLN_dGamma_dw_array | apply returns_const | done].
  - by rewrite !length_fmap, length_linspace_R.
  - do 3 apply Forall_fmap.
    eapply Forall_impl; [by apply linspace_R_bounds|].
    intros w [Hw _]. simpl. destruct (Hpoint w Hw) as (y & Hy & Hy0 & _).
    by exists y.
  - destruct (linspace_R 1 wm); [done|]. simpl in *. by injection Hhead as ->.
  - destruct (Hpoint w0) as (y & Hy & _ & Hy1); [lra|].
    rewrite Hy. f_equal. by apply Hy1.
Qed.

Lemma z_num_real (w : R) : 1 <= w → ∃ z, z_num (Real w) = Real z.
Proof. intros Hw. eexists. apply z_num_Real. lra. Qed.

Lemma plotted_rate_is_real_and_nonnegative_witness :
  0 < 1.870 ∧ 2 * 1.870 <= 5.279 ∧
  (∀ w, 1 <= w → ∃ z, z_num (Real w) = Real z) ∧
  new BToDCLN
    (BToDCLN_init G_F_GeV #5.279 #1.870 #0.0411 (opt_float None)
       (opt_float None) (opt_float None)) = Ok example_CLN ∧
  ∃ ws ys first,
    returns w_range example_CLN (VArray ws) ∧
    returns (plotted_rate (ufunc z_num) BGL_form_factor_spec (VArray ws))
      example_CLN (VArray ys) ∧
    length ys = 50%nat ∧ Forall nonneg ys ∧
    head ys = Some first ∧ first = Real 0.
Proof.
  assert (0 < 1.870) as HD by lra.
  assert (2 * 1.870 <= 5.279) as Hsep by lra.
  split; [exact HD|]. split; [exact Hsep|]. split; [exact z_num_real|].
  split; [apply example_CLN_new|].
  exact (plotted_rate_is_real_and_nonnegative z_num BGL_form_factor_spec
           G_F_GeV 5.279 1.870 0.0411 None None None example_CLN HD Hsep
           z_num_real example_CLN_new).
Defined.

(** X17: [phi_plus] rejects an argument that is [None] or a Python list
    with [TypeError] on every object that has a mass ratio: the sum
    [1 + z] fails first. *)
Theorem phi_plus_rejects_None_and_lists (r : value) (s : object) :
  dict s !! "r" = Some r →
  raises (phi_plus VNone) s TypeError ∧
  ∀ xs, raises (phi_plus (VList xs)) s TypeError.
Proof.
  intros Hr.
  assert (∀ z, vadd #1 z = Raise TypeError → raises (phi_plus z) s TypeError)
    as Hz.
  { intros z Hadd. unfold phi_plus.
    eapply raises_bind_r; [by apply returns_getattr|]. cbv beta.
    do 2 apply raises_binop_l.
    eapply raises_binop_r; [apply returns_const|].
    apply raises_binop_l.
    by eapply raises_binop; [apply returns_const | apply returns_const|]. }
  split; [by apply Hz|]. intros xs. by apply Hz.
Qed.

Lemma phi_plus_rejects_None_and_lists_witness :
  dict example_BGL !! "r" = Some (VFloat (ndiv (Real 1.870) (Real 5.279))) ∧
  raises (phi_plus VNone) example_BGL TypeError ∧
  ∀ xs, raises (phi_plus (VList xs)) example_BGL TypeError.
Proof.
  assert (dict example_BGL !! "r"
          = Some (VFloat (ndiv (Real 1.870) (Real 5.279)))) as Hr.
  { unfold example_BGL, example_base, base_dict. cbn [dict].
    rewrite lookup_insert_ne by done. apply lookup_insert_eq. }
  split; [exact Hr|].
  exact (phi_plus_rejects_None_and_lists _ example_BGL Hr).
Defined.
